(** * Login orchestration of [example.py]

    A shallow embedding of the script's [main] coroutine and of its
    [__main__] block, together with the properties of the login / retry
    logic.  The remote service ([MonarchMoney.login],
    [MonarchMoney.get_accounts]) is an oracle; everything the script does
    that can be observed from outside (remote calls, sleeps, printed
    lines) is recorded in a trace. *)

From Stdlib Require Import ZArith List String Ascii Bool Lia.
Import ListNotations.
Local Open Scope string_scope.
Local Open Scope list_scope.
Local Open Scope Z_scope.

(** ** Python strings *)

Module PyStr.

(** [needle in hay] *)
Fixpoint contains (needle hay : string) : bool :=
  if String.prefix needle hay then true
  else match hay with
       | EmptyString => false
       | String _ rest => contains needle rest
       end.

Definition lower_ascii (c : ascii) : ascii :=
  let n := nat_of_ascii c in
  if (65 <=? n)%nat && (n <=? 90)%nat then ascii_of_nat (n + 32) else c.

(** [s.lower()], on the ASCII letters. *)
Fixpoint lower (s : string) : string :=
  match s with
  | EmptyString => EmptyString
  | String c rest => String (lower_ascii c) (lower rest)
  end.

(** Truth value of an [Optional[str]]: [None] and [""] are false. *)
Definition truthy (v : option string) : bool :=
  match v with
  | Some (String _ _) => true
  | _ => false
  end.

(** [all(xs)] over such values. *)
Definition all (xs : list (option string)) : bool := forallb truthy xs.

End PyStr.

(** ** Exceptions, remote replies, observable events *)

(** Modelled from the spec: the exception classes [RateLimitError] and
    [RequireMFAException] are imported from the [monarchmoney] package,
    whose declarations are not part of the script.  Following the failure
    classification of the authenticator (exactly one of rate-limited,
    MFA-required, other), they are two disjoint subclasses of [Exception];
    [OtherException] stands for every other [Exception].  The payload is
    [str(e)]. *)
Inductive Exn : Type :=
| RateLimitError (msg : string)
| RequireMFAException (msg : string)
| OtherException (msg : string).

Definition str (e : Exn) : string :=
  match e with
  | RateLimitError m | RequireMFAException m | OtherException m => m
  end.

(** Keyword arguments of one [mm.login(...)] call. *)
Record LoginArgs : Type := mkLoginArgs {
  email : option string;
  password : option string;
  save_session : bool;
  use_saved_session : bool;
  mfa_secret_key : option string
}.

(** The JSON object returned by [get_accounts]: keys to lists of accounts. *)
Definition Response : Type := list (string * list string).

(** The remote service.  [login_reply k a] is what the [k]-th login call
    of the run (counting from 0) does when called with arguments [a]:
    [None] when it returns normally, [Some e] when it raises [e]. *)
Record Remote : Type := mkRemote {
  login_reply : nat -> LoginArgs -> option Exn;
  get_accounts_reply : Exn + Response
}.

(** The lines the script prints, one constructor per [print] call. *)
Inductive Msg : Type :=
| MissingCredentials
| LoggedInSavedSession
| RateLimited (attempt_no max_retries : Z) (rate_error : string)
| Waiting (wait_time : Z)
| RetriesExceeded
| SavedSessionFailed (session_error : string)
| LoggedInFresh
| FreshRateLimited (attempt_no max_retries : Z) (rate_error : string)
| LoginFailed
| Retrieved (n : nat)
| MFARequired (e : string)
| CheckMFASecret
| RateLimitErr (e : string)
| RateLimitTroubleshooting
| ErrorCondition (e : string)
| RateLimitDetected
| MainCompleted
| MainFailed.

Inductive Event : Type :=
| EvLogin (a : LoginArgs) (reply : option Exn)
| EvSleep (seconds : Z)
| EvGetAccounts (reply : Exn + Response)
| EvPrint (m : Msg).

(** ** The effect monad: mutable state and exceptions *)

Record State : Type := mkState {
  login_successful : bool;   (* the local variable of [main] *)
  calls : nat;               (* login calls made so far *)
  trace : list Event         (* oldest event first *)
}.

Definition initial : State :=
  {| login_successful := false; calls := 0; trace := [] |}.

Definition M (A : Type) : Type := State -> (Exn + A) * State.

Definition ret {A} (x : A) : M A := fun s => (inr x, s).

Definition bind {A B} (c : M A) (k : A -> M B) : M B :=
  fun s => match c s with
           | (inr x, s') => k x s'
           | (inl e, s') => (inl e, s')
           end.

Definition raise {A} (e : Exn) : M A := fun s => (inl e, s).

(** [try: body  except Exception as e: handler e].  The handler decides
    by the class of [e]; an exception it raises itself propagates. *)
Definition try_except {A} (body : M A) (handler : Exn -> M A) : M A :=
  fun s => match body s with
           | (inl e, s') => handler e s'
           | r => r
           end.

Declare Scope py_scope.
Delimit Scope py_scope with py.
Notation "x <- c ;; k" := (bind c (fun x => k))
  (at level 61, c at next level, right associativity) : py_scope.
Notation "c ;; k" := (bind c (fun _ => k))
  (at level 61, right associativity) : py_scope.
Local Open Scope py_scope.

Definition emit (e : Event) : M unit :=
  fun s => (inr tt, {| login_successful := login_successful s;
                       calls := calls s;
                       trace := trace s ++ [e] |}).

Definition print (m : Msg) : M unit := emit (EvPrint m).

(** [await asyncio.sleep(seconds)] *)
Definition sleep (seconds : Z) : M unit := emit (EvSleep seconds).

Definition set_login_successful (b : bool) : M unit :=
  fun s => (inr tt, {| login_successful := b;
                       calls := calls s;
                       trace := trace s |}).

Definition get_login_successful : M bool :=
  fun s => (inr (login_successful s), s).

(** Control left by one pass through the body of a [for] loop. *)
Inductive Flow : Type :=
| Continue            (* [continue], or the end of the body *)
| Break               (* [break] *)
| Return (v : Z).     (* [return v] from the enclosing function *)

(** [for x in xs: body x].  [Some v] when the body returned [v] from the
    function, [None] when the loop was left by [break] or ran out. *)
Fixpoint for_in (xs : list Z) (body : Z -> M Flow) : M (option Z) :=
  match xs with
  | [] => ret None
  | x :: rest =>
      f <- body x ;;
      match f with
      | Continue => for_in rest body
      | Break => ret None
      | Return v => ret (Some v)
      end
  end.

(** [range(n)] *)
Definition range (n : Z) : list Z := map Z.of_nat (seq 0 (Z.to_nat n)).

(** [d[key]], raising [KeyError(key)] when the key is missing. *)
Fixpoint subscript (d : Response) (key : string) : M (list string) :=
  match d with
  | [] => raise (OtherException ("'" ++ key ++ "'")%string)
  | (k, v) :: rest => if String.eqb k key then ret v else subscript rest key
  end.

(** ** The script *)

Section Script.

Variable remote : Remote.

(** [await mm.login(...)]: one remote call. *)
Definition login (a : LoginArgs) : M unit :=
  fun s =>
    let reply := login_reply remote (calls s) a in
    let s' := {| login_successful := login_successful s;
                 calls := S (calls s);
                 trace := trace s ++ [EvLogin a reply] |} in
    match reply with
    | None => (inr tt, s')
    | Some e => (inl e, s')
    end.

(** [await mm.get_accounts()] *)
Definition get_accounts : M Response :=
  fun s =>
    let reply := get_accounts_reply remote in
    let s' := {| login_successful := login_successful s;
                 calls := calls s;
                 trace := trace s ++ [EvGetAccounts reply] |} in
    match reply with
    | inr r => (inr r, s')
    | inl e => (inl e, s')
    end.

(** [60 * (2 ** attempt)] *)
Definition wait_time (attempt : Z) : Z := 60 * 2 ^ attempt.

(** The body of the [for attempt in range(max_rate_limit_retries)] loop,
    lines 38-85. *)
Definition loop_body (MONARCH_EMAIL MONARCH_PASS MONARCH_MFA : option string)
    (max_rate_limit_retries attempt : Z) : M Flow :=
  try_except
    (login {| email := MONARCH_EMAIL; password := MONARCH_PASS;
              save_session := true; use_saved_session := true;
              mfa_secret_key := MONARCH_MFA |} ;;
     print LoggedInSavedSession ;;
     set_login_successful true ;;
     ret Break)
    (fun exn =>
       match exn with
       | RateLimitError rate_error =>
           print (RateLimited (attempt + 1) max_rate_limit_retries rate_error) ;;
           if attempt <? max_rate_limit_retries - 1 then
             print (Waiting (wait_time attempt)) ;;
             sleep (wait_time attempt) ;;
             ret Continue
           else
             print RetriesExceeded ;;
             ret (Return 1)
       | session_error =>
           print (SavedSessionFailed (str session_error)) ;;
           try_except
             (login {| email := MONARCH_EMAIL; password := MONARCH_PASS;
                       save_session := true; use_saved_session := false;
                       mfa_secret_key := MONARCH_MFA |} ;;
              print LoggedInFresh ;;
              set_login_successful true ;;
              ret Break)
             (fun exn' =>
                match exn' with
                | RateLimitError rate_error =>
                    print (FreshRateLimited (attempt + 1)
                             max_rate_limit_retries rate_error) ;;
                    if attempt <? max_rate_limit_retries - 1 then
                      print (Waiting (wait_time attempt)) ;;
                      sleep (wait_time attempt) ;;
                      ret Continue
                    else
                      print RetriesExceeded ;;
                      ret (Return 1)
                | e => raise e
                end)
       end).

(** [async def main()].  [environ] is the process environment after
    [load_dotenv()]; [os.getenv(k)] is [environ k]. *)
Definition main (environ : string -> option string) : M Z :=
  try_except
    (let MONARCH_EMAIL := environ "MONARCH_EMAIL" in
     let MONARCH_PASS := environ "MONARCH_PASS" in
     let MONARCH_MFA := environ "MONARCH_MFA" in
     if negb (PyStr.all [MONARCH_EMAIL; MONARCH_PASS]) then
       print MissingCredentials ;;
       ret 1
     else
       set_login_successful false ;;
       let max_rate_limit_retries := 3 in
       returned <- for_in (range max_rate_limit_retries)
                     (loop_body MONARCH_EMAIL MONARCH_PASS MONARCH_MFA
                        max_rate_limit_retries) ;;
       match returned with
       | Some v => ret v
       | None =>
           ok <- get_login_successful ;;
           if negb ok then
             print LoginFailed ;;
             ret 1
           else
             accounts_response <- get_accounts ;;
             accounts <- subscript accounts_response "accounts" ;;
             print (Retrieved (List.length accounts)) ;;
             ret 0
       end)
    (fun exn =>
       match exn with
       | RequireMFAException e =>
           print (MFARequired e) ;;
           print CheckMFASecret ;;
           ret 1
       | RateLimitError e =>
           print (RateLimitErr e) ;;
           print RateLimitTroubleshooting ;;
           ret 1
       | OtherException e =>
           print (ErrorCondition e) ;;
           (if PyStr.contains "429" e
               || PyStr.contains "rate limit" (PyStr.lower e)
            then print RateLimitDetected else ret tt) ;;
           ret 1
       end).

(** The [if __name__ == "__main__":] block, lines 126-131. *)
Definition dunder_main (environ : string -> option string) : M unit :=
  exit_code <- main environ ;;
  if exit_code =? 0 then print MainCompleted else print MainFailed.

End Script.

(** Exit status of the interpreter process once the module body has run:
    0 when it ran to its end, 1 when an exception was left uncaught.  The
    script never calls [sys.exit]. *)
Definition process_exit_status (r : (Exn + unit) * State) : Z :=
  match fst r with
  | inr _ => 0
  | inl _ => 1
  end.

(** One whole run of [main] and of the script from a fresh interpreter. *)
Definition run_main (remote : Remote) (environ : string -> option string)
  : (Exn + Z) * State := main remote environ initial.

Definition run_script (remote : Remote) (environ : string -> option string)
  : (Exn + unit) * State := dunder_main remote environ initial.

Definition main_trace (remote : Remote) (environ : string -> option string)
  : list Event := trace (snd (run_main remote environ)).

Definition script_trace (remote : Remote) (environ : string -> option string)
  : list Event := trace (snd (run_script remote environ)).

(** ** Observations on traces *)

Definition is_login (e : Event) : bool :=
  match e with EvLogin _ _ => true | _ => false end.

Definition is_stored_login (e : Event) : bool :=
  match e with EvLogin a _ => use_saved_session a | _ => false end.

Definition is_fresh_login (e : Event) : bool :=
  match e with EvLogin a _ => negb (use_saved_session a) | _ => false end.

Definition is_rate_limited (e : Event) : bool :=
  match e with EvLogin _ (Some (RateLimitError _)) => true | _ => false end.

(** The remote login calls of a trace, in order. *)
Definition logins (t : list Event) : list Event := filter is_login t.

(** The rate-limited login attempts of a trace, on either path. *)
Definition rate_limited (t : list Event) : list Event := filter is_rate_limited t.

(** The rate-limited login attempts of one path ([stored = true] for the
    saved-session path). *)
Definition rate_limited_on (stored : bool) (t : list Event) : list Event :=
  filter (fun e => if stored then is_stored_login e else is_fresh_login e)
    (rate_limited t).

(** The durations slept, in order. *)
Definition sleeps (t : list Event) : list Z :=
  flat_map (fun e => match e with EvSleep w => [w] | _ => [] end) t.

(** The "MFA required" diagnostics printed. *)
Definition mfa_reports (t : list Event) : list string :=
  flat_map (fun e => match e with EvPrint (MFARequired m) => [m] | _ => [] end) t.

(** The two lines that announce an established session. *)
Definition logged_in (e : Event) : bool :=
  match e with
  | EvPrint LoggedInSavedSession | EvPrint LoggedInFresh => true
  | _ => false
  end.

(** Every line that reports some success to the user. *)
Definition success_report (e : Event) : bool :=
  match e with
  | EvPrint LoggedInSavedSession | EvPrint LoggedInFresh
  | EvPrint (Retrieved _) | EvPrint MainCompleted => true
  | _ => false
  end.

(** The outcome of session acquisition, as the script reports it. *)
Inductive Outcome : Type := Success | MFABlocked | GaveUp.

Definition acquisition_outcome (t : list Event) : Outcome :=
  if existsb logged_in t then Success
  else match mfa_reports t with
       | _ :: _ => MFABlocked
       | [] => GaveUp
       end.

(** The line printed by the [except RateLimitError] clause of the path
    that [a] belongs to, in the pass with loop index [attempt]. *)
Definition rate_limit_report (a : LoginArgs) (attempt : Z) (m : string) : Msg :=
  if use_saved_session a then RateLimited (attempt + 1) 3 m
  else FreshRateLimited (attempt + 1) 3 m.

(** The arguments of the two login calls of [loop_body], for statements. *)
Definition stored_args (environ : string -> option string) : LoginArgs :=
  {| email := environ "MONARCH_EMAIL"; password := environ "MONARCH_PASS";
     save_session := true; use_saved_session := true;
     mfa_secret_key := environ "MONARCH_MFA" |}.

Definition fresh_args (environ : string -> option string) : LoginArgs :=
  {| email := environ "MONARCH_EMAIL"; password := environ "MONARCH_PASS";
     save_session := true; use_saved_session := false;
     mfa_secret_key := environ "MONARCH_MFA" |}.

(** ** Properties of every position of a trace *)

(** [at_every_split P pre t]: [P before e after] holds at every event [e]
    of [t], where [before] is [pre] followed by the events of [t] before
    [e], and [after] the events of [t] after it. *)
Fixpoint at_every_split (P : list Event -> Event -> list Event -> Prop)
    (pre t : list Event) : Prop :=
  match t with
  | [] => True
  | e :: post => P pre e post /\ at_every_split P (pre ++ [e]) post
  end.

(** The last three events of a trace. *)
Definition last3 (t : list Event) : list Event := skipn (List.length t - 3) t.

(** What surrounds each event of a run of the script.  The loop index of
    the pass an event belongs to is the number of sleeps before it. *)
Definition policy (pre : list Event) (e : Event) (post : list Event) : Prop :=
  let i := Z.of_nat (List.length (sleeps pre)) in
  match e with
  | EvLogin a (Some (RateLimitError m)) =>
      List.length (rate_limited pre) = List.length (sleeps pre) /\
      ((i < 2 /\
        exists a' r post',
          post = EvPrint (rate_limit_report a i m)
                 :: EvPrint (Waiting (60 * 2 ^ i))
                 :: EvSleep (60 * 2 ^ i) :: EvLogin a' r :: post'
          /\ use_saved_session a' = true) \/
       (i = 2 /\
        post = [EvPrint (rate_limit_report a i m); EvPrint RetriesExceeded;
                EvPrint MainFailed]))
  | EvLogin a (Some (RequireMFAException m)) =>
      if use_saved_session a then
        exists a' r post',
          post = EvPrint (SavedSessionFailed m) :: EvLogin a' r :: post'
          /\ use_saved_session a' = false
      else
        post = [EvPrint (MFARequired m); EvPrint CheckMFASecret;
                EvPrint MainFailed]
        /\ mfa_reports pre = []
  | EvLogin a (Some (OtherException m)) =>
      if use_saved_session a then
        exists a' r post',
          post = EvPrint (SavedSessionFailed m) :: EvLogin a' r :: post'
          /\ use_saved_session a' = false
      else
        logins post = [] /\ sleeps post = [] /\ existsb success_report post = false
  | EvLogin a None =>
      logins post = [] /\ sleeps post = [] /\
      hd_error post = Some (EvPrint (if use_saved_session a
                                     then LoggedInSavedSession else LoggedInFresh))
  | EvSleep w =>
      i < 2 /\ w = 60 * 2 ^ i /\
      exists a m, last3 pre = [EvLogin a (Some (RateLimitError m));
                               EvPrint (rate_limit_report a i m);
                               EvPrint (Waiting w)]
  | _ => True
  end.

(** ** Three readings of the retry logic, to be compared with the script *)

(** An MFA-required reply ends all login activity, on whichever path it
    was received, and is reported once. *)
Definition mfa_is_terminal (t : list Event) : Prop :=
  forall pre a m post,
    t = pre ++ EvLogin a (Some (RequireMFAException m)) :: post ->
    logins post = [] /\ mfa_reports t = [m].

(** Each path has a retry counter of its own: the backoff after a
    rate-limited attempt is computed from the number of earlier
    rate-limited attempts on the same path, as long as that path has
    retries left. *)
Definition independent_counters (t : list Event) : Prop :=
  forall pre a m post,
    t = pre ++ EvLogin a (Some (RateLimitError m)) :: post ->
    let i := List.length (rate_limited_on (use_saved_session a) pre) in
    (i < 2)%nat ->
    hd_error (sleeps post) = Some (60 * 2 ^ Z.of_nat i).

(** After a rate-limited fresh login, the next login made is a fresh
    login again. *)
Definition fresh_backoff_retries_fresh (t : list Event) : Prop :=
  forall pre a m post,
    t = pre ++ EvLogin a (Some (RateLimitError m)) :: post ->
    use_saved_session a = false ->
    forall e, hd_error (logins post) = Some e -> is_fresh_login e = true.

(** ** Concrete environments and remote behaviours *)

Definition env_ok (k : string) : option string :=
  if String.eqb k "MONARCH_EMAIL" then Some "user@example.com"
  else if String.eqb k "MONARCH_PASS" then Some "secret"
  else None.

Definition env_no_email (k : string) : option string :=
  if String.eqb k "MONARCH_PASS" then Some "secret" else None.

Definition accounts_ok : Exn + Response :=
  inr [("accounts", ["Checking"; "Savings"])].

(** Replies chosen by the position of the call in the run. *)
Definition by_call (replies : list (option Exn)) (k : nat) (_ : LoginArgs)
  : option Exn := nth k replies None.

(** Replies chosen by the path of the call. *)
Definition by_path (stored fresh : option Exn) (_ : nat) (a : LoginArgs)
  : option Exn := if use_saved_session a then stored else fresh.

(** The saved session is answered by an MFA demand, the fresh login works. *)
Definition remote_stored_mfa : Remote :=
  {| login_reply := by_path (Some (RequireMFAException "MFA required")) None;
     get_accounts_reply := accounts_ok |}.

(** The saved session is rejected, the fresh login is answered by an MFA
    demand. *)
Definition remote_fresh_mfa : Remote :=
  {| login_reply := by_path (Some (OtherException "session expired"))
                      (Some (RequireMFAException "MFA required"));
     get_accounts_reply := accounts_ok |}.

(** Rate-limited saved session, then a rejected saved session followed by
    a rate-limited fresh login, then success. *)
Definition remote_mixed : Remote :=
  {| login_reply := by_call [Some (RateLimitError "429");
                             Some (OtherException "session expired");
                             Some (RateLimitError "429")];
     get_accounts_reply := accounts_ok |}.

(** The saved session is always rejected, the fresh login always
    rate-limited. *)
Definition remote_fresh_limited : Remote :=
  {| login_reply := by_path (Some (OtherException "session expired"))
                      (Some (RateLimitError "429"));
     get_accounts_reply := accounts_ok |}.

(** Every login is rate-limited. *)
Definition remote_always_limited : Remote :=
  {| login_reply := fun _ _ => Some (RateLimitError "429");
     get_accounts_reply := accounts_ok |}.

(** Two rate-limited logins, then success. *)
Definition remote_third_time : Remote :=
  {| login_reply := by_call [Some (RateLimitError "429");
                             Some (RateLimitError "429")];
     get_accounts_reply := accounts_ok |}.

(** ** The end of a run *)

(** The last event and the last two events of a trace. *)
Definition last1 (t : list Event) : list Event := skipn (List.length t - 1) t.

Definition last2 (t : list Event) : list Event := skipn (List.length t - 2) t.

(** The value of [d[key]]: the list found, or the [KeyError] raised. *)
Definition item (d : Response) (key : string) : Exn + list string :=
  fst (subscript d key initial).

(** The test of line 115:
    ["429" in str(e) or "rate limit" in str(e).lower()]. *)
Definition rate_limit_hint (e : string) : bool :=
  PyStr.contains "429" e || PyStr.contains "rate limit" (PyStr.lower e).

(** A string none of whose characters is touched or produced by
    lower-casing. *)
Fixpoint uncased (n : string) : Prop :=
  match n with
  | EmptyString => True
  | String c rest =>
      (forall a, PyStr.lower_ascii a = c <-> a = c) /\ uncased rest
  end.

(** The lines printed by the last [except Exception] clause of [main]
    and by the [__main__] block after it. *)
Definition generic_failure (e : string) : list Event :=
  EvPrint (ErrorCondition e)
  :: (if rate_limit_hint e then [EvPrint RateLimitDetected] else [])
  ++ [EvPrint MainFailed].

Definition is_retrieved (e : Event) : bool :=
  match e with EvPrint (Retrieved _) => true | _ => false end.

Definition is_get_accounts (e : Event) : bool :=
  match e with EvGetAccounts _ => true | _ => false end.

(** What the script does after the call of [get_accounts], by its reply. *)
Definition after_get_accounts (reply : Exn + Response) : list Event :=
  match reply with
  | inr d =>
      match item d "accounts" with
      | inr accounts =>
          [EvPrint (Retrieved (List.length accounts)); EvPrint MainCompleted]
      | inl _ => generic_failure "'accounts'"
      end
  | inl (RateLimitError e) =>
      [EvPrint (RateLimitErr e); EvPrint RateLimitTroubleshooting;
       EvPrint MainFailed]
  | inl (RequireMFAException e) =>
      [EvPrint (MFARequired e); EvPrint CheckMFASecret; EvPrint MainFailed]
  | inl (OtherException e) => generic_failure e
  end.

(** What surrounds the login calls, the call of [get_accounts] and the
    diagnostics of a run of the script started in [environ]. *)
Definition audit (environ : string -> option string)
    (pre : list Event) (e : Event) (post : list Event) : Prop :=
  match e with
  | EvLogin a r =>
      (if use_saved_session a then a = stored_args environ
       else a = fresh_args environ
            /\ exists exn,
                 last2 pre = [EvLogin (stored_args environ) (Some exn);
                              EvPrint (SavedSessionFailed (str exn))]
                 /\ is_rate_limited (EvLogin (stored_args environ) (Some exn))
                    = false)
      /\ match r with
         | Some (OtherException m) =>
             if use_saved_session a then True else post = generic_failure m
         | _ => True
         end
  | EvGetAccounts r =>
      (exists a,
         last2 pre = [EvLogin a None;
                      EvPrint (if use_saved_session a
                               then LoggedInSavedSession else LoggedInFresh)])
      /\ existsb is_get_accounts pre = false
      /\ post = after_get_accounts r
  | EvPrint LoginFailed => False
  | EvPrint (RateLimitErr m) =>
      last1 pre = [EvGetAccounts (inl (RateLimitError m))]
  | _ => True
  end.

(** What holds of a finished run as a whole. *)
Definition summary (r : (Exn + unit) * State) : Prop :=
  let t := trace (snd r) in
  (sleeps t = [] \/ sleeps t = [60] \/ sleeps t = [60; 120])
  /\ login_successful (snd r) = existsb logged_in t
  /\ calls (snd r) = List.length (logins t)
  /\ ((last1 t = [EvPrint MainCompleted] /\ existsb is_retrieved t = true)
      \/ (last1 t = [EvPrint MainFailed] /\ existsb is_retrieved t = false)).

(** A finished run obeys [audit] at each of its events, and [summary]. *)
Definition audited (environ : string -> option string)
    (r : (Exn + unit) * State) : Prop :=
  at_every_split (audit environ) [] (trace (snd r)) /\ summary r.

(** The saved session works at once. *)
Definition remote_stored_ok : Remote :=
  {| login_reply := fun _ _ => None; get_accounts_reply := accounts_ok |}.

(** The saved session is rejected, the fresh login works. *)
Definition remote_fresh_ok : Remote :=
  {| login_reply := by_path (Some (OtherException "session expired")) None;
     get_accounts_reply := accounts_ok |}.

(** Logins work; the accounts response lacks the key [accounts]. *)
Definition remote_no_accounts_key : Remote :=
  {| login_reply := fun _ _ => None;
     get_accounts_reply := inr [("errors", ["unauthorized"])] |}.

(** Logins work; [get_accounts] is rate-limited. *)
Definition remote_accounts_limited : Remote :=
  {| login_reply := fun _ _ => None;
     get_accounts_reply := inl (RateLimitError "429") |}.

(** The saved session is rejected, the fresh login fails with a message
    that mentions a rate limit. *)
Definition remote_fresh_rejected : Remote :=
  {| login_reply := by_path (Some (OtherException "session expired"))
                      (Some (OtherException "HTTP Code 429: Rate Limit hit"));
     get_accounts_reply := accounts_ok |}.

(** * Proofs *)

Arguments bind {A B} c k s /.
Arguments try_except {A} body handler s /.
Arguments ret {A} x s /.
Arguments raise {A} e s /.
Arguments emit e s /.
Arguments print m s /.
Arguments sleep seconds s /.
Arguments set_login_successful b s /.
Arguments get_login_successful s /.
Arguments login remote a s /.
Arguments get_accounts remote s /.
Arguments loop_body remote MONARCH_EMAIL MONARCH_PASS MONARCH_MFA
  max_rate_limit_retries attempt s /.

(** ** Lists and traces *)

Lemma at_every_split_spec P t :
  forall pre, at_every_split P pre t ->
  forall l e r, t = l ++ e :: r -> P (pre ++ l) e r.
Proof.
  induction t as [|x t IH]; intros pre H l e r Heq.
  - destruct l; discriminate.
  - destruct H as [Hx Ht]. destruct l as [|y l]; cbn in Heq.
    + injection Heq as -> ->. now rewrite app_nil_r.
    + injection Heq as -> ->.
      specialize (IH _ Ht l e r eq_refl).
      now rewrite <- app_assoc in IH.
Qed.

Lemma last3_spec t x y z :
  last3 t = [x; y; z] -> exists older, t = older ++ [x; y; z].
Proof.
  intros H. exists (firstn (List.length t - 3) t).
  rewrite <- H. unfold last3. symmetry. apply firstn_skipn.
Qed.

Lemma sleeps_app t u : sleeps (t ++ u) = sleeps t ++ sleeps u.
Proof. apply flat_map_app. Qed.

Lemma mfa_reports_app t u : mfa_reports (t ++ u) = mfa_reports t ++ mfa_reports u.
Proof. apply flat_map_app. Qed.

Lemma logins_app t u : logins (t ++ u) = logins t ++ logins u.
Proof. apply filter_app. Qed.

Create Rewrite HintDb trace_app.
#[export] Hint Rewrite sleeps_app mfa_reports_app logins_app
  filter_app length_app : trace_app.

Lemma subscript_cases d key s :
  (exists v, subscript d key s = (inr v, s)) \/
  subscript d key s = (inl (OtherException ("'" ++ key ++ "'")%string), s).
Proof.
  induction d as [|[k v] d IH]; cbn.
  - right; reflexivity.
  - destruct (String.eqb k key); [left; eexists; reflexivity | exact IH].
Qed.

(** ** Symbolic execution of a run *)

(** One step: split on the next reply of the remote service, on the
    lookup in the accounts response, or on a test that is still open. *)
Ltac exec_step :=
  match goal with
  | |- context [login_reply ?r ?k ?a] =>
      let E := fresh "Hreply" in
      destruct (login_reply r k a) as [[?m|?m|?m]|] eqn:E
  | |- context [get_accounts_reply ?r] =>
      let E := fresh "Hacc" in
      destruct (get_accounts_reply r) as [[?m|?m|?m]|?resp] eqn:E
  | |- context [subscript ?d ?k ?s] =>
      let H := fresh "Hsub" in
      destruct (subscript_cases d k s) as [[?v H]|H]; rewrite H; clear H
  | |- context [if ?b then _ else _] =>
      destruct b eqn:?
  end; cbn.

Ltac policy_leaf :=
  cbn; repeat split;
  try solve
    [ reflexivity
    | do 3 eexists; split; reflexivity
    | match goal with
      | |- exists a m, (EvLogin ?a0 (Some (RateLimitError ?m0)) :: _) = _ =>
          exists a0, m0; reflexivity
      end
    | left; split; [reflexivity | do 3 eexists; split; reflexivity]
    | right; split; reflexivity ].

(** Every event of every run of the script obeys [policy]. *)
Lemma script_policy remote environ :
  at_every_split policy [] (script_trace remote environ).
Proof.
  unfold script_trace, run_script, dunder_main, main.
  change (range 3) with [0; 1; 2].
  cbn.
  destruct (environ "MONARCH_EMAIL") as [[|c1 e1]|] eqn:HE; cbn;
    [tauto | | tauto].
  destruct (environ "MONARCH_PASS") as [[|c2 e2]|] eqn:HP; cbn;
    [tauto | | tauto].
  repeat exec_step.
  all: policy_leaf.
Qed.

Lemma policy_at remote environ pre e post :
  script_trace remote environ = pre ++ e :: post -> policy pre e post.
Proof.
  intros H.
  exact (at_every_split_spec policy _ [] (script_policy remote environ) pre e post H).
Qed.

(** ** One pass of the loop, and the loop *)

(** What one pass through the loop body can do: it appends events to the
    trace, the first of which is a saved-session login; among them are no
    other saved-session login and at most one fresh login; it never
    leaves the function with a value other than 1. *)
Lemma loop_body_spec remote E P F n i s :
  exists more,
    trace (snd (loop_body remote E P F n i s))
    = trace s
      ++ EvLogin (mkLoginArgs E P true true F)
           (login_reply remote (calls s) (mkLoginArgs E P true true F))
      :: more
    /\ List.length (filter is_stored_login more) = 0%nat
    /\ (List.length (filter is_fresh_login more) <= 1)%nat
    /\ (forall v, fst (loop_body remote E P F n i s) = inr (Return v) -> v = 1).
Proof.
  cbn.
  repeat exec_step; rewrite <- ?app_assoc; cbn;
    (eexists; split; [reflexivity|]; cbn;
     split; [reflexivity|]; split; [lia|]; intros v' Hv; congruence).
Qed.

Lemma for_in_cons x rest body s :
  for_in (x :: rest) body s =
  match body x s with
  | (inr Continue, s1) => for_in rest body s1
  | (inr Break, s1) => (inr None, s1)
  | (inr (Return v), s1) => (inr (Some v), s1)
  | (inl e, s1) => (inl e, s1)
  end.
Proof. cbn. now destruct (body x s) as [[e|[| |v]] s1]. Qed.

(** The loop makes at most one login per path and pass; when it has a
    pass to make, it starts with a saved-session login. *)
Lemma for_in_spec remote E P F n xs :
  forall s,
  exists new,
    trace (snd (for_in xs (loop_body remote E P F n) s)) = trace s ++ new
    /\ (List.length (filter is_stored_login new) <= List.length xs)%nat
    /\ (List.length (filter is_fresh_login new) <= List.length xs)%nat
    /\ (forall v, fst (for_in xs (loop_body remote E P F n) s) = inr (Some v)
                  -> v = 1)
    /\ (xs <> [] ->
        exists more,
          new = EvLogin (mkLoginArgs E P true true F)
                  (login_reply remote (calls s) (mkLoginArgs E P true true F))
                :: more).
Proof.
  induction xs as [|x xs IH]; intros s.
  - exists []. cbn. rewrite app_nil_r.
    repeat split; try lia; [intros v Hv; discriminate Hv | congruence].
  - destruct (loop_body_spec remote E P F n x s) as (more & Ht & Hs & Hf & Hv).
    rewrite for_in_cons.
    destruct (loop_body remote E P F n x s) as [[e|[| |v]] s1];
      cbn [fst snd] in *.
    2: { destruct (IH s1) as (new2 & Ht2 & Hs2 & Hf2 & Hv2 & _).
         eexists. rewrite Ht2, Ht, <- app_assoc. split; [reflexivity|].
         cbn [app]. cbn [filter is_stored_login is_fresh_login use_saved_session negb].
         autorewrite with trace_app. cbn [List.length].
         rewrite ?length_app.
         repeat split; try lia; try assumption.
         intros _. eexists. reflexivity. }
    all: eexists; rewrite Ht; (split; [reflexivity|]);
      cbn [filter is_stored_login is_fresh_login use_saved_session negb List.length];
      repeat split; try lia;
      try (intros v' Hv'; first [discriminate Hv' | apply Hv; congruence]).
    all: intros _; eexists; reflexivity.
Qed.

(** ** The whole of [main] *)

(** [main] always returns, with 0 or 1, whatever the remote service does;
    it makes at most three login calls on each path; when the credentials
    are present it starts with a saved-session login. *)
Lemma main_spec remote environ s :
  exists code new,
    fst (main remote environ s) = inr code
    /\ (code = 0 \/ code = 1)
    /\ trace (snd (main remote environ s)) = trace s ++ new
    /\ (List.length (filter is_stored_login new) <= 3)%nat
    /\ (List.length (filter is_fresh_login new) <= 3)%nat
    /\ (PyStr.all [environ "MONARCH_EMAIL"; environ "MONARCH_PASS"] = true ->
        exists more,
          new = EvLogin (stored_args environ)
                  (login_reply remote (calls s) (stored_args environ))
                :: more).
Proof.
  unfold main, stored_args. cbv zeta.
  destruct (PyStr.all _) eqn:Hall; cbn [negb].
  - cbv beta iota delta [bind set_login_successful try_except].
    match goal with
    | |- context [for_in ?xs ?body ?s0] =>
        destruct (for_in_spec remote (environ "MONARCH_EMAIL")
                    (environ "MONARCH_PASS") (environ "MONARCH_MFA") 3 xs s0)
          as (new1 & Ht & Hs & Hf & Hv & Hfirst);
        destruct (for_in xs body s0) as [[e|[v|]] s1]
    end; cbn [fst snd trace calls] in *;
      change (List.length (range 3)) with 3%nat in *;
      (destruct Hfirst as [more ->]; [discriminate|]).
    all: try (specialize (Hv v eq_refl); subst v).
    all: try destruct e.
    all: cbn; repeat exec_step.
    all: do 2 eexists; split; [reflexivity|]; split; [auto|]; split;
      [rewrite Ht, <- ?app_assoc; reflexivity|];
      split; [autorewrite with trace_app in *; cbn in *; lia|];
      split; [autorewrite with trace_app in *; cbn in *; lia|];
      intros _; eexists; reflexivity.
  - cbn. exists 1, [EvPrint MissingCredentials]. cbn.
    repeat split; auto; try lia; try discriminate.
Qed.

(** The [__main__] block prints its verdict after [main] and ends
    normally. *)
Lemma script_spec remote environ :
  exists code,
    fst (run_main remote environ) = inr code
    /\ (code = 0 \/ code = 1)
    /\ fst (run_script remote environ) = inr tt
    /\ script_trace remote environ =
       main_trace remote environ
       ++ [EvPrint (if code =? 0 then MainCompleted else MainFailed)].
Proof.
  unfold script_trace, main_trace, run_script, run_main, dunder_main.
  destruct (main_spec remote environ initial) as (code & new & Hc & H01 & _).
  exists code. cbv beta iota delta [bind].
  destruct (main remote environ initial) as [[e|c] s1]; cbn in Hc; [discriminate|].
  injection Hc as ->.
  destruct H01 as [-> | ->]; cbn; auto.
Qed.

Lemma logins_by_path t :
  List.length (logins t) =
  (List.length (filter is_stored_login t) + List.length (filter is_fresh_login t))%nat.
Proof.
  induction t as [|e t IH]; [reflexivity|].
  destruct e as [a r|w|r|m]; cbn; try assumption.
  unfold logins in IH. destruct (use_saved_session a); cbn; lia.
Qed.

(** ** The end of a run *)

Lemma subscript_item d key s : subscript d key s = (item d key, s).
Proof.
  unfold item. induction d as [|[k v] d IH]; cbn; [reflexivity|].
  destruct (String.eqb k key); [reflexivity | exact IH].
Qed.

Lemma item_error d key e :
  item d key = inl e -> e = OtherException ("'" ++ key ++ "'")%string.
Proof.
  unfold item. induction d as [|[k v] d IH]; cbn.
  - intros H. now injection H as <-.
  - destruct (String.eqb k key); [discriminate | exact IH].
Qed.

Ltac audit_step :=
  match goal with
  | |- context [login_reply ?r ?k ?a] =>
      let E := fresh "Hreply" in
      destruct (login_reply r k a) as [[?m|?m|?m]|] eqn:E
  | |- context [get_accounts_reply ?r] =>
      let E := fresh "Hacc" in
      destruct (get_accounts_reply r) as [[?m|?m|?m]|?resp] eqn:E
  | |- context [subscript ?d ?k ?s] =>
      let H := fresh "Hitem" in
      rewrite (subscript_item d k s);
      destruct (item d k) as [?exn|?accounts] eqn:H;
      [pose proof (item_error _ _ _ H); subst|]
  | |- context [if ?b then _ else _] =>
      let v := eval vm_compute in b in
      first [ match v with
              | true => replace b with true by (vm_compute; reflexivity)
              | false => replace b with false by (vm_compute; reflexivity)
              end
            | destruct b eqn:? ]
  end; cbn -[audited].

Lemma last_after (pre : list Event) e post d :
  last (pre ++ e :: post) d = last (e :: post) d.
Proof.
  induction pre as [|x pre IH]; [reflexivity|].
  cbn [app]. rewrite <- IH. cbn. destruct (pre ++ e :: post) eqn:E; [|reflexivity].
  destruct pre; discriminate E.
Qed.

(** The verdict printed last tells what [main] returned. *)
Lemma verdict remote environ d :
  (last (script_trace remote environ) d = EvPrint MainCompleted ->
   fst (run_main remote environ) = inr 0)
  /\ (last (script_trace remote environ) d = EvPrint MainFailed ->
      fst (run_main remote environ) = inr 1).
Proof.
  destruct (script_spec remote environ) as (code & Hc & H01 & _ & Ht).
  rewrite Ht, last_last, Hc.
  destruct H01 as [-> | ->]; cbn; split; intros H;
    first [reflexivity | discriminate H].
Qed.

Lemma generic_failure_quiet e :
  logins (generic_failure e) = [] /\ sleeps (generic_failure e) = []
  /\ existsb is_get_accounts (generic_failure e) = false
  /\ last (generic_failure e) (EvSleep 0) = EvPrint MainFailed.
Proof. unfold generic_failure. destruct (rate_limit_hint e); repeat split. Qed.

Lemma after_get_accounts_quiet r :
  logins (after_get_accounts r) = [] /\ sleeps (after_get_accounts r) = []
  /\ existsb is_get_accounts (after_get_accounts r) = false.
Proof.
  destruct r as [[m|m|m]|d]; cbn; try (repeat split; fail).
  - destruct (generic_failure_quiet m) as (H1 & H2 & H3 & _). auto.
  - destruct (item d "accounts"); [|repeat split].
    destruct (generic_failure_quiet "'accounts'") as (H1 & H2 & H3 & _). auto.
Qed.

(** * The claims *)

(** ** MFA-required replies *)

(** C1, as stated, fails: an MFA-required reply to the saved-session
    attempt is handled like any other failure of that attempt, and a
    fresh login follows. *)
Lemma stored_mfa_is_followed_by_fresh_login :
  ~ mfa_is_terminal (script_trace remote_stored_mfa env_ok).
Proof.
  intros H.
  destruct (H [] (stored_args env_ok) "MFA required"
              (skipn 1 (script_trace remote_stored_mfa env_ok)) eq_refl)
    as [Hlogins _].
  discriminate Hlogins.
Qed.

(** C1, amended: an MFA-required reply to a fresh login is terminal.
    Nothing but the two diagnostic lines and the verdict of the script
    follows it (no login, no sleep), it is reported once, and [main]
    returns 1.  An MFA-required reply to the saved-session attempt is
    followed by the fresh login of the same pass. *)
Theorem fresh_mfa_is_terminal remote environ pre a m post :
  script_trace remote environ
  = pre ++ EvLogin a (Some (RequireMFAException m)) :: post ->
  if use_saved_session a then
    exists a' r post',
      post = EvPrint (SavedSessionFailed m) :: EvLogin a' r :: post'
      /\ use_saved_session a' = false
  else
    post = [EvPrint (MFARequired m); EvPrint CheckMFASecret; EvPrint MainFailed]
    /\ logins post = [] /\ sleeps post = []
    /\ mfa_reports (script_trace remote environ) = [m]
    /\ fst (run_main remote environ) = inr 1.
Proof.
  intros Hsplit. pose proof (policy_at _ _ _ _ _ Hsplit) as Hp. cbn in Hp.
  destruct (use_saved_session a); [exact Hp|].
  destruct Hp as [-> Hpre].
  repeat split; try reflexivity.
  - rewrite Hsplit, mfa_reports_app, Hpre. reflexivity.
  - destruct (script_spec remote environ) as (code & Hc & H01 & _ & Ht).
    rewrite Hc. destruct H01 as [-> | ->]; [|reflexivity].
    rewrite Ht in Hsplit. cbn in Hsplit.
    change (pre ++ EvLogin a (Some (RequireMFAException m))
              :: [EvPrint (MFARequired m); EvPrint CheckMFASecret; EvPrint MainFailed])
      with (pre ++ [EvLogin a (Some (RequireMFAException m));
                    EvPrint (MFARequired m); EvPrint CheckMFASecret]
                ++ [EvPrint MainFailed]) in Hsplit.
    rewrite app_assoc in Hsplit.
    apply app_inj_tail in Hsplit. destruct Hsplit as [_ Hlast]. discriminate Hlast.
Qed.

Lemma fresh_mfa_is_terminal_witness :
  script_trace remote_fresh_mfa env_ok
  = firstn 2 (script_trace remote_fresh_mfa env_ok)
    ++ EvLogin (fresh_args env_ok) (Some (RequireMFAException "MFA required"))
    :: skipn 3 (script_trace remote_fresh_mfa env_ok)
  /\ skipn 3 (script_trace remote_fresh_mfa env_ok)
     = [EvPrint (MFARequired "MFA required"); EvPrint CheckMFASecret;
        EvPrint MainFailed]
  /\ logins (skipn 3 (script_trace remote_fresh_mfa env_ok)) = []
  /\ sleeps (skipn 3 (script_trace remote_fresh_mfa env_ok)) = []
  /\ mfa_reports (script_trace remote_fresh_mfa env_ok) = ["MFA required"]
  /\ fst (run_main remote_fresh_mfa env_ok) = inr 1.
Proof.
  split; [reflexivity|].
  exact (fresh_mfa_is_terminal remote_fresh_mfa env_ok
           (firstn 2 (script_trace remote_fresh_mfa env_ok))
           (fresh_args env_ok) "MFA required"
           (skipn 3 (script_trace remote_fresh_mfa env_ok)) eq_refl).
Defined.

(** ** The retry counter *)

(** C2, as stated, fails: after one rate-limited saved-session attempt,
    the first rate-limited fresh login is followed by a sleep of 120
    seconds, not of 60. *)
Lemma fresh_backoff_continues_stored_count :
  ~ independent_counters (script_trace remote_mixed env_ok).
Proof.
  intros H.
  specialize (H (firstn 6 (script_trace remote_mixed env_ok))
                (fresh_args env_ok) "429"
                (skipn 7 (script_trace remote_mixed env_ok)) eq_refl).
  vm_compute in H. specialize (H ltac:(lia)). discriminate H.
Qed.

(** C2, amended: the two paths share one retry counter, the number of
    rate-limited attempts made so far on either path.  While it is below 2
    a rate-limited attempt is followed by a backoff computed from it; the
    third rate-limited attempt ends the run, whichever paths the three
    were made on. *)
Theorem shared_retry_counter remote environ pre a m post :
  script_trace remote environ
  = pre ++ EvLogin a (Some (RateLimitError m)) :: post ->
  let i := Z.of_nat (List.length (rate_limited pre)) in
  (i < 2 /\
   exists post',
     post = EvPrint (rate_limit_report a i m) :: EvPrint (Waiting (60 * 2 ^ i))
            :: EvSleep (60 * 2 ^ i) :: post') \/
  (i = 2 /\
   post = [EvPrint (rate_limit_report a i m); EvPrint RetriesExceeded;
           EvPrint MainFailed]).
Proof.
  intros Hsplit i. pose proof (policy_at _ _ _ _ _ Hsplit) as Hp. cbn in Hp.
  destruct Hp as [Hcount Hp]. subst i. rewrite Hcount.
  destruct Hp as [(Hi & a' & r & post' & -> & _) | (Hi & ->)].
  - left. split; [exact Hi|]. eexists. reflexivity.
  - right. split; [exact Hi|]. reflexivity.
Qed.

Lemma shared_retry_counter_witness :
  script_trace remote_mixed env_ok
  = firstn 6 (script_trace remote_mixed env_ok)
    ++ EvLogin (fresh_args env_ok) (Some (RateLimitError "429"))
    :: skipn 7 (script_trace remote_mixed env_ok)
  /\ exists post',
       skipn 7 (script_trace remote_mixed env_ok)
       = EvPrint (FreshRateLimited 2 3 "429") :: EvPrint (Waiting 120)
         :: EvSleep 120 :: post'.
Proof.
  split; [reflexivity|].
  destruct (shared_retry_counter remote_mixed env_ok
              (firstn 6 (script_trace remote_mixed env_ok))
              (fresh_args env_ok) "429"
              (skipn 7 (script_trace remote_mixed env_ok)) eq_refl)
    as [[_ H] | [H _]].
  - exact H.
  - vm_compute in H. discriminate H.
Defined.

(** ** What follows a rate-limited fresh login *)

(** C3, as stated, fails: after the backoff of a rate-limited fresh login
    the next login made is a saved-session attempt. *)
Lemma fresh_backoff_is_followed_by_stored_login :
  ~ fresh_backoff_retries_fresh (script_trace remote_fresh_limited env_ok).
Proof.
  intros H.
  specialize (H (firstn 2 (script_trace remote_fresh_limited env_ok))
                (fresh_args env_ok) "429"
                (skipn 3 (script_trace remote_fresh_limited env_ok))
                eq_refl eq_refl _ eq_refl).
  discriminate H.
Qed.

(** C3, amended: a rate-limited fresh login in a pass with loop index
    below 2 is followed by its report, the sleep of [60 * 2 ^ index]
    seconds, and then by the next pass of the loop, which starts with a
    saved-session attempt.  The login made next after that attempt is a
    fresh login exactly when the attempt raised an exception other than a
    rate limit. *)
Theorem fresh_backoff_restarts_with_stored_login remote environ pre a m post :
  script_trace remote environ
  = pre ++ EvLogin a (Some (RateLimitError m)) :: post ->
  use_saved_session a = false ->
  Z.of_nat (List.length (sleeps pre)) < 2 ->
  exists a' r post',
    post = EvPrint (FreshRateLimited (Z.of_nat (List.length (sleeps pre)) + 1) 3 m)
           :: EvPrint (Waiting (60 * 2 ^ Z.of_nat (List.length (sleeps pre))))
           :: EvSleep (60 * 2 ^ Z.of_nat (List.length (sleeps pre)))
           :: EvLogin a' r :: post'
    /\ use_saved_session a' = true
    /\ ((exists e, hd_error (logins post') = Some e /\ is_fresh_login e = true)
        <-> (exists exn, r = Some exn /\ forall m', exn <> RateLimitError m')).
Proof.
  intros Hsplit Hfresh Hi. pose proof (policy_at _ _ _ _ _ Hsplit) as Hp. cbn in Hp.
  destruct Hp as [_ [(_ & a' & r & post' & Hpost & Ha') | (Hi' & _)]]; [|lia].
  exists a', r, post'. split; [|split; [exact Ha'|]].
  { rewrite Hpost. unfold rate_limit_report. rewrite Hfresh. reflexivity. }
  assert (Hnext : script_trace remote environ
                  = (pre ++ [EvLogin a (Some (RateLimitError m));
                             EvPrint (rate_limit_report a
                                        (Z.of_nat (List.length (sleeps pre))) m);
                             EvPrint (Waiting
                                        (60 * 2 ^ Z.of_nat (List.length (sleeps pre))));
                             EvSleep (60 * 2 ^ Z.of_nat (List.length (sleeps pre)))])
                    ++ EvLogin a' r :: post').
  { rewrite Hsplit, Hpost, <- app_assoc. reflexivity. }
  pose proof (policy_at _ _ _ _ _ Hnext) as Hq. clear Hnext Hsplit Hpost.
  unfold policy in Hq. rewrite Ha' in Hq.
  destruct r as [[m'|m'|m']|].
  - destruct Hq as [_ [(_ & a2 & r2 & post2 & -> & Ha2) | (_ & ->)]].
    + split.
      * intros (e & He & Hf). cbn in He. injection He as <-.
        cbn in Hf. rewrite Ha2 in Hf. discriminate Hf.
      * intros (exn & Hexn & Hne). injection Hexn as <-. destruct (Hne m' eq_refl).
    + split.
      * intros (e & He & _). discriminate He.
      * intros (exn & Hexn & Hne). injection Hexn as <-. destruct (Hne m' eq_refl).
  - destruct Hq as (a2 & r2 & post2 & -> & Ha2). split.
    + intros _. eexists. split; [reflexivity|]. intros m2 H. discriminate H.
    + intros _. eexists. split; [reflexivity|]. cbn. now rewrite Ha2.
  - destruct Hq as (a2 & r2 & post2 & -> & Ha2). split.
    + intros _. eexists. split; [reflexivity|]. intros m2 H. discriminate H.
    + intros _. eexists. split; [reflexivity|]. cbn. now rewrite Ha2.
  - destruct Hq as (Hl & _). split.
    + intros (e & He & _). rewrite Hl in He. discriminate He.
    + intros (exn & Hexn & _). discriminate Hexn.
Qed.

Lemma fresh_backoff_restarts_with_stored_login_witness :
  script_trace remote_fresh_limited env_ok
  = firstn 2 (script_trace remote_fresh_limited env_ok)
    ++ EvLogin (fresh_args env_ok) (Some (RateLimitError "429"))
    :: skipn 3 (script_trace remote_fresh_limited env_ok)
  /\ use_saved_session (fresh_args env_ok) = false
  /\ Z.of_nat (List.length (sleeps (firstn 2 (script_trace remote_fresh_limited
                                                env_ok)))) < 2
  /\ exists a' r post',
       skipn 3 (script_trace remote_fresh_limited env_ok)
       = EvPrint (FreshRateLimited 1 3 "429") :: EvPrint (Waiting 60)
         :: EvSleep 60 :: EvLogin a' r :: post'
       /\ use_saved_session a' = true
       /\ ((exists e, hd_error (logins post') = Some e /\ is_fresh_login e = true)
           <-> (exists exn, r = Some exn /\ forall m', exn <> RateLimitError m')).
Proof.
  split; [reflexivity|]. split; [reflexivity|]. split; [reflexivity|].
  exact (fresh_backoff_restarts_with_stored_login remote_fresh_limited env_ok
           (firstn 2 (script_trace remote_fresh_limited env_ok))
           (fresh_args env_ok) "429"
           (skipn 3 (script_trace remote_fresh_limited env_ok))
           eq_refl eq_refl eq_refl).
Defined.

(** ** The backoff delay *)

(** C4: a sleep made in the pass with loop index [i] (the number of
    sleeps made before it) lasts [60 * 2 ^ i] seconds.  It directly
    follows a rate-limited login of either path and the two lines that
    report it, the first of which shows the attempt number [i + 1]. *)
Theorem backoff_delay remote environ pre w post :
  script_trace remote environ = pre ++ EvSleep w :: post ->
  let i := Z.of_nat (List.length (sleeps pre)) in
  0 <= i < 2
  /\ w = 60 * 2 ^ i
  /\ exists older a m,
       pre = older ++ [EvLogin a (Some (RateLimitError m));
                       EvPrint (rate_limit_report a i m);
                       EvPrint (Waiting w)].
Proof.
  intros Hsplit i. pose proof (policy_at _ _ _ _ _ Hsplit) as Hp. cbn in Hp.
  destruct Hp as (Hi & Hw & a & m & Hlast).
  repeat split; try assumption; [subst i; lia|].
  destruct (last3_spec _ _ _ _ Hlast) as [older Hpre].
  exists older, a, m. exact Hpre.
Qed.

Lemma backoff_delay_witness :
  script_trace remote_mixed env_ok
  = firstn 9 (script_trace remote_mixed env_ok)
    ++ EvSleep 120 :: skipn 10 (script_trace remote_mixed env_ok)
  /\ 0 <= 1 < 2
  /\ 120 = 60 * 2 ^ 1
  /\ exists older a m,
       firstn 9 (script_trace remote_mixed env_ok)
       = older ++ [EvLogin a (Some (RateLimitError m));
                   EvPrint (rate_limit_report a 1 m);
                   EvPrint (Waiting 120)].
Proof.
  split; [reflexivity|].
  exact (backoff_delay remote_mixed env_ok
           (firstn 9 (script_trace remote_mixed env_ok)) 120
           (skipn 10 (script_trace remote_mixed env_ok)) eq_refl).
Defined.

(** ** From a rate limit to a success *)

(** C6: when a rate-limited login is followed, anywhere later in the run,
    by a line reporting success, then the login is directly followed by
    its report and by a sleep of [60 * 2 ^ i] seconds, [i] being the loop
    index of the pass of that login. *)
Theorem success_after_rate_limit_needs_backoff
    remote environ pre a m mid e post :
  script_trace remote environ
  = pre ++ EvLogin a (Some (RateLimitError m)) :: mid ++ e :: post ->
  success_report e = true ->
  let i := Z.of_nat (List.length (sleeps pre)) in
  exists mid',
    mid = EvPrint (rate_limit_report a i m) :: EvPrint (Waiting (60 * 2 ^ i))
          :: EvSleep (60 * 2 ^ i) :: mid'
    /\ In (EvSleep (60 * 2 ^ i)) mid.
Proof.
  intros Hsplit He i. pose proof (policy_at _ _ _ _ _ Hsplit) as Hp.
  cbn -[Z.mul Z.pow] in Hp. fold i in Hp.
  assert (Hrep : success_report (EvPrint (rate_limit_report a i m)) = false)
    by (unfold rate_limit_report; destruct (use_saved_session a); reflexivity).
  destruct Hp as [_ [(_ & a' & r & post' & Hpost & _) | (_ & Hpost)]].
  - destruct mid as [|x1 [|x2 [|x3 mid']]]; cbn -[Z.mul Z.pow] in Hpost;
      injection Hpost as; subst; try congruence; try discriminate He.
    eexists. split; [reflexivity|]. cbn -[Z.mul Z.pow]. auto.
  - destruct mid as [|x1 [|x2 [|x3 mid']]]; cbn -[Z.mul Z.pow] in Hpost;
      injection Hpost as; subst; try congruence; try discriminate He.
    destruct mid'; discriminate.
Qed.

Lemma success_after_rate_limit_needs_backoff_witness :
  script_trace remote_third_time env_ok
  = [] ++ EvLogin (stored_args env_ok) (Some (RateLimitError "429"))
    :: firstn 8 (skipn 1 (script_trace remote_third_time env_ok))
    ++ EvPrint LoggedInSavedSession
    :: skipn 10 (script_trace remote_third_time env_ok)
  /\ success_report (EvPrint LoggedInSavedSession) = true
  /\ In (EvSleep 60) (firstn 8 (skipn 1 (script_trace remote_third_time env_ok))).
Proof.
  split; [reflexivity|]. split; [reflexivity|].
  destruct (success_after_rate_limit_needs_backoff remote_third_time env_ok
              [] (stored_args env_ok) "429"
              (firstn 8 (skipn 1 (script_trace remote_third_time env_ok)))
              (EvPrint LoggedInSavedSession)
              (skipn 10 (script_trace remote_third_time env_ok))
              eq_refl eq_refl) as (mid' & _ & Hin).
  exact Hin.
Defined.

(** ** The number of remote calls *)

(** C8: a run makes at most six login calls, at most three on the
    saved-session path and at most three on the fresh-login path. *)
Theorem at_most_six_logins remote environ :
  (List.length (logins (script_trace remote environ)) <= 6)%nat
  /\ (List.length (filter is_stored_login (script_trace remote environ)) <= 3)%nat
  /\ (List.length (filter is_fresh_login (script_trace remote environ)) <= 3)%nat.
Proof.
  destruct (script_spec remote environ) as (code & _ & _ & _ & Ht).
  destruct (main_spec remote environ initial) as (c & new & _ & _ & Hnew & Hs & Hf & _).
  fold (run_main remote environ) in Hnew. fold (main_trace remote environ) in Hnew.
  cbn in Hnew. rewrite logins_by_path, Ht, Hnew.
  autorewrite with trace_app. destruct (code =? 0); cbn; lia.
Qed.

(** The bound is reached. *)
Lemma six_logins_are_possible :
  List.length (logins (script_trace remote_fresh_limited env_ok)) = 6%nat.
Proof. vm_compute. reflexivity. Qed.

(** ** Scenarios *)

(** C5: when every login attempt that decides a pass of the loop is
    answered by a rate limit (each fresh login is rate-limited, and no
    saved-session login succeeds, so that a pass ends either in a
    rate-limited saved-session attempt or in a rate-limited fresh login),
    the run gives up: exactly three attempts are rate-limited, it sleeps
    60 and then 120 seconds, nothing is slept after the third
    rate-limited attempt, no success is printed and [main] returns 1. *)
Theorem all_rate_limited_gives_up remote environ :
  PyStr.all [environ "MONARCH_EMAIL"; environ "MONARCH_PASS"] = true ->
  (forall k a, (k < 6)%nat -> use_saved_session a = false ->
               exists m, login_reply remote k a = Some (RateLimitError m)) ->
  (forall k a, (k < 6)%nat -> use_saved_session a = true ->
               login_reply remote k a <> None) ->
  fst (run_main remote environ) = inr 1
  /\ sleeps (script_trace remote environ) = [60; 120]
  /\ List.length (rate_limited (script_trace remote environ)) = 3%nat
  /\ existsb success_report (script_trace remote environ) = false
  /\ acquisition_outcome (script_trace remote environ) = GaveUp
  /\ exists pre a m,
       script_trace remote environ
       = pre ++ [EvLogin a (Some (RateLimitError m));
                 EvPrint (rate_limit_report a 2 m);
                 EvPrint RetriesExceeded; EvPrint MainFailed]
       /\ sleeps pre = [60; 120].
Proof.
  intros Hcred Hfresh Hstored.
  assert (Ht : sleeps (script_trace remote environ) = [60; 120]
               /\ List.length (rate_limited (script_trace remote environ)) = 3%nat
               /\ existsb success_report (script_trace remote environ) = false
               /\ acquisition_outcome (script_trace remote environ) = GaveUp
               /\ exists pre a m,
                    script_trace remote environ
                    = pre ++ [EvLogin a (Some (RateLimitError m));
                              EvPrint (rate_limit_report a 2 m);
                              EvPrint RetriesExceeded; EvPrint MainFailed]
                    /\ sleeps pre = [60; 120]).
  { unfold script_trace, run_script, dunder_main, main.
    change (range 3) with [0; 1; 2].
    cbv zeta. rewrite Hcred. cbn.
    repeat
      (match goal with
       | |- context [login_reply ?r ?k ?a] =>
           first
             [ let m := fresh "m" in
               destruct (Hfresh k a ltac:(lia) eq_refl) as [m ->]
             | let E := fresh "Hreply" in
               destruct (login_reply r k a) as [[?m|?m|?m]|] eqn:E;
               [ | | | exfalso; exact (Hstored k a ltac:(lia) eq_refl E)] ]
       end; cbn).
    all: repeat (split; [reflexivity|]).
    all: match goal with
         | |- exists pre a m, ?t = _ /\ _ =>
             exists (firstn (List.length t - 4) t);
             let l := eval cbn in (skipn (List.length t - 4) t) in
             match l with
             | EvLogin ?a0 (Some (RateLimitError ?m0)) :: _ => exists a0, m0
             end
         end; split; reflexivity. }
  split; [|exact Ht].
  destruct Ht as (_ & _ & _ & _ & pre & a & m & Hend & _).
  apply (proj2 (verdict remote environ (EvSleep 0))).
  rewrite Hend, last_after. reflexivity.
Qed.

Lemma all_rate_limited_gives_up_witness :
  PyStr.all [env_ok "MONARCH_EMAIL"; env_ok "MONARCH_PASS"] = true
  /\ (forall k a, (k < 6)%nat -> use_saved_session a = false ->
        exists m, login_reply remote_fresh_limited k a = Some (RateLimitError m))
  /\ (forall k a, (k < 6)%nat -> use_saved_session a = true ->
        login_reply remote_fresh_limited k a <> None)
  /\ fst (run_main remote_fresh_limited env_ok) = inr 1
  /\ sleeps (script_trace remote_fresh_limited env_ok) = [60; 120]
  /\ List.length (rate_limited (script_trace remote_fresh_limited env_ok)) = 3%nat
  /\ existsb success_report (script_trace remote_fresh_limited env_ok) = false
  /\ acquisition_outcome (script_trace remote_fresh_limited env_ok) = GaveUp.
Proof.
  assert (Hf : forall k a, (k < 6)%nat -> use_saved_session a = false ->
                 exists m, login_reply remote_fresh_limited k a
                           = Some (RateLimitError m)).
  { intros k a _ Ha. exists "429"%string. cbn. unfold by_path. now rewrite Ha. }
  assert (Hs : forall k a, (k < 6)%nat -> use_saved_session a = true ->
                 login_reply remote_fresh_limited k a <> None).
  { intros k a _ Ha. cbn. unfold by_path. rewrite Ha. discriminate. }
  split; [reflexivity|]. split; [exact Hf|]. split; [exact Hs|].
  destruct (all_rate_limited_gives_up remote_fresh_limited env_ok eq_refl Hf Hs)
    as (H1 & H2 & H3 & H4 & H5 & _).
  split; [exact H1|]. split; [exact H2|]. split; [exact H3|].
  split; [exact H4 | exact H5].
Defined.

(** The same when it is the saved-session attempt that is rate-limited
    three times: the whole trace. *)
Lemma stored_rate_limited_three_times remote environ (msg : nat -> string) :
  PyStr.all [environ "MONARCH_EMAIL"; environ "MONARCH_PASS"] = true ->
  (forall k a, (k < 3)%nat ->
               login_reply remote k a = Some (RateLimitError (msg k))) ->
  script_trace remote environ
  = [EvLogin (stored_args environ) (Some (RateLimitError (msg 0%nat)));
     EvPrint (RateLimited 1 3 (msg 0%nat)); EvPrint (Waiting 60); EvSleep 60;
     EvLogin (stored_args environ) (Some (RateLimitError (msg 1%nat)));
     EvPrint (RateLimited 2 3 (msg 1%nat)); EvPrint (Waiting 120); EvSleep 120;
     EvLogin (stored_args environ) (Some (RateLimitError (msg 2%nat)));
     EvPrint (RateLimited 3 3 (msg 2%nat)); EvPrint RetriesExceeded;
     EvPrint MainFailed].
Proof.
  intros Hcred Hrl.
  unfold stored_args, script_trace, run_script, run_main, dunder_main, main.
  change (range 3) with [0; 1; 2].
  cbv zeta. rewrite Hcred. cbn.
  rewrite !Hrl by lia. cbn.
  rewrite !Hrl by lia. cbn.
  rewrite !Hrl by lia. cbn.
  reflexivity.
Qed.

(** C7: when the saved-session attempt is rate-limited twice and then
    succeeds, the run sleeps 60 and then 120 seconds, in that order,
    announces the login and goes on to [get_accounts]: the whole trace is
    fixed by the reply of [get_accounts].  It makes no other login and no
    other sleep, the session is acquired, and [main] returns 0 as soon as
    [get_accounts] returns an object with the key [accounts]. *)
Theorem third_stored_attempt_succeeds remote environ m0 m1 :
  PyStr.all [environ "MONARCH_EMAIL"; environ "MONARCH_PASS"] = true ->
  login_reply remote 0 (stored_args environ) = Some (RateLimitError m0) ->
  login_reply remote 1 (stored_args environ) = Some (RateLimitError m1) ->
  login_reply remote 2 (stored_args environ) = None ->
  script_trace remote environ
  = [EvLogin (stored_args environ) (Some (RateLimitError m0));
     EvPrint (RateLimited 1 3 m0); EvPrint (Waiting 60); EvSleep 60;
     EvLogin (stored_args environ) (Some (RateLimitError m1));
     EvPrint (RateLimited 2 3 m1); EvPrint (Waiting 120); EvSleep 120;
     EvLogin (stored_args environ) None;
     EvPrint LoggedInSavedSession;
     EvGetAccounts (get_accounts_reply remote)]
    ++ after_get_accounts (get_accounts_reply remote)
  /\ (exists rest,
        script_trace remote environ
        = [EvLogin (stored_args environ) (Some (RateLimitError m0));
           EvPrint (RateLimited 1 3 m0); EvPrint (Waiting 60); EvSleep 60;
           EvLogin (stored_args environ) (Some (RateLimitError m1));
           EvPrint (RateLimited 2 3 m1); EvPrint (Waiting 120); EvSleep 120;
           EvLogin (stored_args environ) None;
           EvPrint LoggedInSavedSession] ++ rest
        /\ logins rest = [] /\ sleeps rest = [])
  /\ sleeps (script_trace remote environ) = [60; 120]
  /\ acquisition_outcome (script_trace remote environ) = Success
  /\ login_successful (snd (run_script remote environ)) = true
  /\ (forall d accounts,
        get_accounts_reply remote = inr d -> item d "accounts" = inr accounts ->
        fst (run_main remote environ) = inr 0).
Proof.
  intros Hcred H0 H1 H2.
  assert (Ht : script_trace remote environ
               = [EvLogin (stored_args environ) (Some (RateLimitError m0));
                  EvPrint (RateLimited 1 3 m0); EvPrint (Waiting 60); EvSleep 60;
                  EvLogin (stored_args environ) (Some (RateLimitError m1));
                  EvPrint (RateLimited 2 3 m1); EvPrint (Waiting 120);
                  EvSleep 120;
                  EvLogin (stored_args environ) None;
                  EvPrint LoggedInSavedSession;
                  EvGetAccounts (get_accounts_reply remote)]
                 ++ after_get_accounts (get_accounts_reply remote)
               /\ login_successful (snd (run_script remote environ)) = true).
  { unfold stored_args, script_trace, run_script, dunder_main, main in *.
    change (range 3) with [0; 1; 2].
    cbv zeta. rewrite Hcred. cbn.
    rewrite H0. cbn. rewrite H1. cbn. rewrite H2. cbn.
    repeat audit_step;
      unfold after_get_accounts, generic_failure, rate_limit_hint;
      repeat match goal with
             | H : item _ _ = _ |- _ => rewrite H
             | H : (_ || _) = _ |- _ => rewrite H
             end;
      split; reflexivity. }
  destruct Ht as [Ht Hflag].
  destruct (after_get_accounts_quiet (get_accounts_reply remote)) as (Hl & Hs & _).
  split; [exact Ht|]. split; [|split; [|split; [|split; [exact Hflag|]]]].
  - exists (EvGetAccounts (get_accounts_reply remote)
            :: after_get_accounts (get_accounts_reply remote)).
    split; [exact Ht|]. cbn. split; [exact Hl | exact Hs].
  - rewrite Ht, sleeps_app, Hs. reflexivity.
  - rewrite Ht. reflexivity.
  - intros d accounts Hd Hitem.
    apply (proj1 (verdict remote environ (EvSleep 0))).
    rewrite Ht, Hd. cbn. rewrite Hitem. reflexivity.
Qed.

Lemma third_stored_attempt_succeeds_witness :
  PyStr.all [env_ok "MONARCH_EMAIL"; env_ok "MONARCH_PASS"] = true
  /\ login_reply remote_third_time 0 (stored_args env_ok)
     = Some (RateLimitError "429")
  /\ login_reply remote_third_time 1 (stored_args env_ok)
     = Some (RateLimitError "429")
  /\ login_reply remote_third_time 2 (stored_args env_ok) = None
  /\ sleeps (script_trace remote_third_time env_ok) = [60; 120]
  /\ acquisition_outcome (script_trace remote_third_time env_ok) = Success
  /\ login_successful (snd (run_script remote_third_time env_ok)) = true
  /\ fst (run_main remote_third_time env_ok) = inr 0.
Proof.
  do 4 (split; [reflexivity|]).
  destruct (third_stored_attempt_succeeds remote_third_time env_ok
              "429" "429" eq_refl eq_refl eq_refl eq_refl)
    as (_ & _ & Hs & Ho & Hf & Hret).
  split; [exact Hs|]. split; [exact Ho|]. split; [exact Hf|].
  exact (Hret [("accounts", ["Checking"; "Savings"])] ["Checking"; "Savings"]
           eq_refl eq_refl).
Defined.

(** ** Missing credentials *)

(** C10: when the e-mail address or the password is absent from the
    environment, [main] returns 1 at once: it prints one line and makes
    no login call and no sleep.  When both are present and only the MFA
    seed is absent, the run starts with a login call, made without MFA
    seed. *)
Theorem missing_credentials_fail_fast remote environ :
  (environ "MONARCH_EMAIL" = None \/ environ "MONARCH_PASS" = None ->
   run_main remote environ
   = (inr 1, {| login_successful := false; calls := 0;
                trace := [EvPrint MissingCredentials] |})
   /\ logins (main_trace remote environ) = []
   /\ sleeps (main_trace remote environ) = [])
  /\ (PyStr.all [environ "MONARCH_EMAIL"; environ "MONARCH_PASS"] = true ->
      environ "MONARCH_MFA" = None ->
      exists a reply rest,
        main_trace remote environ = EvLogin a reply :: rest
        /\ mfa_secret_key a = None).
Proof.
  split.
  - intros Habsent.
    assert (Hall : PyStr.all [environ "MONARCH_EMAIL"; environ "MONARCH_PASS"]
                   = false).
    { destruct Habsent as [-> | ->]; cbn; [reflexivity|].
      destruct (PyStr.truthy _); reflexivity. }
    assert (Hrun : run_main remote environ
                   = (inr 1, {| login_successful := false; calls := 0;
                                trace := [EvPrint MissingCredentials] |})).
    { unfold run_main, main. cbv zeta. rewrite Hall. reflexivity. }
    unfold main_trace. rewrite Hrun. repeat split.
  - intros Hall Hmfa.
    destruct (main_spec remote environ initial)
      as (code & new & _ & _ & Hnew & _ & _ & Hfirst).
    destruct (Hfirst Hall) as [more ->].
    exists (stored_args environ),
      (login_reply remote (calls initial) (stored_args environ)), more.
    split; [exact Hnew | exact Hmfa].
Qed.

Lemma missing_credentials_fail_fast_witness :
  (env_no_email "MONARCH_EMAIL" = None \/ env_no_email "MONARCH_PASS" = None)
  /\ run_main remote_always_limited env_no_email
     = (inr 1, {| login_successful := false; calls := 0;
                  trace := [EvPrint MissingCredentials] |})
  /\ PyStr.all [env_ok "MONARCH_EMAIL"; env_ok "MONARCH_PASS"] = true
  /\ env_ok "MONARCH_MFA" = None
  /\ exists a reply rest,
       main_trace remote_third_time env_ok = EvLogin a reply :: rest
       /\ mfa_secret_key a = None.
Proof.
  split; [left; reflexivity|].
  split; [exact (proj1 (proj1 (missing_credentials_fail_fast
                                 remote_always_limited env_no_email)
                          (or_introl eq_refl)))|].
  split; [reflexivity|]. split; [reflexivity|].
  exact (proj2 (missing_credentials_fail_fast remote_third_time env_ok)
           eq_refl eq_refl).
Defined.

(** An empty e-mail address or password counts as a missing one. *)
Lemma empty_credentials_fail_fast remote environ :
  environ "MONARCH_EMAIL" = Some ""%string
  \/ environ "MONARCH_PASS" = Some ""%string ->
  run_main remote environ
  = (inr 1, {| login_successful := false; calls := 0;
               trace := [EvPrint MissingCredentials] |}).
Proof.
  intros Hempty. unfold run_main, main. cbv zeta.
  assert (Hall : PyStr.all [environ "MONARCH_EMAIL"; environ "MONARCH_PASS"]
                 = false).
  { destruct Hempty as [-> | ->]; cbn; [reflexivity|].
    destruct (PyStr.truthy _); reflexivity. }
  rewrite Hall. reflexivity.
Qed.

(** ** Outcome and exit status *)

(** [main] always returns 0 or 1: no exception leaves it. *)
Lemma main_returns_0_or_1 remote environ :
  fst (run_main remote environ) = inr 0 \/ fst (run_main remote environ) = inr 1.
Proof.
  destruct (script_spec remote environ) as (code & Hc & [-> | ->] & _);
    rewrite Hc; auto.
Qed.

(** [main] returns 0 only after a login was announced. *)
Lemma main_returns_0_after_login remote environ :
  fst (run_main remote environ) = inr 0 ->
  acquisition_outcome (script_trace remote environ) = Success.
Proof.
  unfold acquisition_outcome, script_trace, run_script, run_main, dunder_main, main.
  change (range 3) with [0; 1; 2].
  cbn.
  destruct (environ "MONARCH_EMAIL") as [[|c1 e1]|]; cbn; try discriminate.
  destruct (environ "MONARCH_PASS") as [[|c2 e2]|]; cbn; try discriminate.
  repeat exec_step.
  all: intros H; try discriminate H; reflexivity.
Qed.

(** The script ends normally whatever [main] returned, so that the exit
    status of the process is 0 in every run. *)
Lemma exit_status_always_zero remote environ :
  process_exit_status (run_script remote environ) = 0.
Proof.
  unfold process_exit_status.
  destruct (script_spec remote environ) as (code & _ & _ & -> & _).
  reflexivity.
Qed.

(** C9, where the script departs from it: with the e-mail address
    missing, [main] returns the failure value 1 and the script prints its
    failure verdict, but the exit status of the process is 0. *)
Theorem failure_leaves_exit_status_zero :
  fst (run_main remote_always_limited env_no_email) = inr 1
  /\ script_trace remote_always_limited env_no_email
     = [EvPrint MissingCredentials; EvPrint MainFailed]
  /\ process_exit_status (run_script remote_always_limited env_no_email) = 0.
Proof. repeat split. Qed.

(** * Beyond the claims *)

(** ** Every event of a run *)

Ltac audit_leaf :=
  unfold audited, summary, audit, stored_args, fresh_args;
  try match goal with
      | H : _ "MONARCH_EMAIL" = _ |- _ => rewrite ?H
      end;
  try match goal with
      | H : _ "MONARCH_PASS" = _ |- _ => rewrite ?H
      end;
  cbn;
  unfold after_get_accounts, generic_failure, rate_limit_hint;
  repeat match goal with
         | H : item _ _ = _ |- _ => rewrite H
         | H : (_ || _) = _ |- _ => rewrite H
         end;
  cbn;
  repeat split;
  try solve
    [ reflexivity
    | eexists; reflexivity
    | match goal with
      | |- exists exn, (EvLogin _ (Some ?x) :: _) = _ /\ _ =>
          exists x; split; reflexivity
      | |- exists a, (EvLogin ?x None :: _) = _ => exists x; reflexivity
      end
    | left; reflexivity
    | right; left; reflexivity
    | right; right; reflexivity
    | left; split; reflexivity
    | right; split; reflexivity ].

(** Every run obeys [audit] at each of its events, and [summary]. *)
Lemma script_audit remote environ :
  audited environ (run_script remote environ).
Proof.
  unfold run_script, dunder_main, main.
  change (range 3) with [0; 1; 2].
  cbn -[audited].
  destruct (environ "MONARCH_EMAIL") as [[|c1 e1]|] eqn:HE; cbn -[audited];
    [audit_leaf | | audit_leaf].
  destruct (environ "MONARCH_PASS") as [[|c2 e2]|] eqn:HP; cbn -[audited];
    [audit_leaf | | audit_leaf].
  repeat audit_step.
  all: audit_leaf.
Qed.

Lemma audit_at remote environ pre e post :
  script_trace remote environ = pre ++ e :: post -> audit environ pre e post.
Proof.
  intros H.
  exact (at_every_split_spec (audit environ) _ []
           (proj1 (script_audit remote environ)) pre e post H).
Qed.

Lemma run_summary remote environ : summary (run_script remote environ).
Proof. exact (proj2 (script_audit remote environ)). Qed.

Lemma last1_spec t x : last1 t = [x] -> exists older, t = older ++ [x].
Proof.
  intros H. exists (firstn (List.length t - 1) t).
  rewrite <- H. unfold last1. symmetry. apply firstn_skipn.
Qed.

Lemma last2_spec t x y : last2 t = [x; y] -> exists older, t = older ++ [x; y].
Proof.
  intros H. exists (firstn (List.length t - 2) t).
  rewrite <- H. unfold last2. symmetry. apply firstn_skipn.
Qed.

(** ** After the login loop *)

(** X1: the line "Failed to login after all attempts" is never printed:
    no run leaves the loop without a [break], a [return] or an
    exception. *)
Theorem login_failed_line_is_never_printed remote environ :
  ~ In (EvPrint LoginFailed) (script_trace remote environ).
Proof.
  intros Hin. apply in_split in Hin. destruct Hin as (pre & post & Hsplit).
  exact (audit_at _ _ _ _ _ Hsplit).
Qed.

(** X2: [get_accounts] is called at most once in a run, directly after
    the line that announces a successful login; no login, no sleep and no
    second call follow it. *)
Theorem get_accounts_follows_login_success remote environ pre r post :
  script_trace remote environ = pre ++ EvGetAccounts r :: post ->
  (exists older a,
     pre = older ++ [EvLogin a None;
                     EvPrint (if use_saved_session a
                              then LoggedInSavedSession else LoggedInFresh)])
  /\ existsb is_get_accounts pre = false
  /\ existsb is_get_accounts post = false
  /\ logins post = [] /\ sleeps post = [].
Proof.
  intros Hsplit. destruct (audit_at _ _ _ _ _ Hsplit) as ((a & Hlast) & Hpre & ->).
  destruct (last2_spec _ _ _ Hlast) as [older Holder].
  destruct (after_get_accounts_quiet r) as (H1 & H2 & H3).
  repeat split; try assumption. exists older, a. exact Holder.
Qed.

Lemma get_accounts_follows_login_success_witness :
  script_trace remote_fresh_ok env_ok
  = firstn 4 (script_trace remote_fresh_ok env_ok)
    ++ EvGetAccounts accounts_ok :: skipn 5 (script_trace remote_fresh_ok env_ok)
  /\ (exists older a,
        firstn 4 (script_trace remote_fresh_ok env_ok)
        = older ++ [EvLogin a None;
                    EvPrint (if use_saved_session a
                             then LoggedInSavedSession else LoggedInFresh)])
  /\ existsb is_get_accounts (firstn 4 (script_trace remote_fresh_ok env_ok))
     = false
  /\ existsb is_get_accounts (skipn 5 (script_trace remote_fresh_ok env_ok))
     = false
  /\ logins (skipn 5 (script_trace remote_fresh_ok env_ok)) = []
  /\ sleeps (skipn 5 (script_trace remote_fresh_ok env_ok)) = [].
Proof.
  split; [reflexivity|].
  exact (get_accounts_follows_login_success remote_fresh_ok env_ok
           (firstn 4 (script_trace remote_fresh_ok env_ok)) accounts_ok
           (skipn 5 (script_trace remote_fresh_ok env_ok)) eq_refl).
Defined.

(** X3: when [get_accounts] returns an object with the key [accounts],
    the script prints the number of accounts under that key and its
    success verdict, and [main] returns 0. *)
Theorem accounts_are_counted remote environ pre d accounts post :
  script_trace remote environ = pre ++ EvGetAccounts (inr d) :: post ->
  item d "accounts" = inr accounts ->
  post = [EvPrint (Retrieved (List.length accounts)); EvPrint MainCompleted]
  /\ fst (run_main remote environ) = inr 0.
Proof.
  intros Hsplit Hitem. destruct (audit_at _ _ _ _ _ Hsplit) as (_ & _ & Hpost).
  cbn in Hpost. rewrite Hitem in Hpost. split; [exact Hpost|].
  apply (proj1 (verdict remote environ (EvSleep 0))).
  rewrite Hsplit, last_after, Hpost. reflexivity.
Qed.

Lemma accounts_are_counted_witness :
  script_trace remote_stored_ok env_ok
  = firstn 2 (script_trace remote_stored_ok env_ok)
    ++ EvGetAccounts (inr [("accounts", ["Checking"; "Savings"])])
    :: skipn 3 (script_trace remote_stored_ok env_ok)
  /\ item [("accounts", ["Checking"; "Savings"])] "accounts"
     = inr ["Checking"; "Savings"]
  /\ skipn 3 (script_trace remote_stored_ok env_ok)
     = [EvPrint (Retrieved 2); EvPrint MainCompleted]
  /\ fst (run_main remote_stored_ok env_ok) = inr 0.
Proof.
  split; [reflexivity|]. split; [reflexivity|].
  exact (accounts_are_counted remote_stored_ok env_ok
           (firstn 2 (script_trace remote_stored_ok env_ok))
           [("accounts", ["Checking"; "Savings"])] ["Checking"; "Savings"]
           (skipn 3 (script_trace remote_stored_ok env_ok)) eq_refl eq_refl).
Defined.

(** X4: when the object returned by [get_accounts] has no key
    [accounts], the [KeyError] is caught by the last handler of [main]:
    the script prints the error without the rate-limit advice, then its
    failure verdict, and [main] returns 1 although the login succeeded. *)
Theorem missing_accounts_key_fails remote environ pre d exn post :
  script_trace remote environ = pre ++ EvGetAccounts (inr d) :: post ->
  item d "accounts" = inl exn ->
  post = [EvPrint (ErrorCondition "'accounts'"); EvPrint MainFailed]
  /\ fst (run_main remote environ) = inr 1.
Proof.
  intros Hsplit Hitem. destruct (audit_at _ _ _ _ _ Hsplit) as (_ & _ & Hpost).
  cbn in Hpost. rewrite Hitem in Hpost.
  assert (Hgen : generic_failure "'accounts'"
                 = [EvPrint (ErrorCondition "'accounts'"); EvPrint MainFailed])
    by (vm_compute; reflexivity).
  rewrite Hgen in Hpost. split; [exact Hpost|].
  apply (proj2 (verdict remote environ (EvSleep 0))).
  rewrite Hsplit, last_after, Hpost. reflexivity.
Qed.

Lemma missing_accounts_key_fails_witness :
  script_trace remote_no_accounts_key env_ok
  = firstn 2 (script_trace remote_no_accounts_key env_ok)
    ++ EvGetAccounts (inr [("errors", ["unauthorized"])])
    :: skipn 3 (script_trace remote_no_accounts_key env_ok)
  /\ item [("errors", ["unauthorized"])] "accounts"
     = inl (OtherException "'accounts'")
  /\ skipn 3 (script_trace remote_no_accounts_key env_ok)
     = [EvPrint (ErrorCondition "'accounts'"); EvPrint MainFailed]
  /\ fst (run_main remote_no_accounts_key env_ok) = inr 1.
Proof.
  split; [reflexivity|]. split; [reflexivity|].
  exact (missing_accounts_key_fails remote_no_accounts_key env_ok
           (firstn 2 (script_trace remote_no_accounts_key env_ok))
           [("errors", ["unauthorized"])] (OtherException "'accounts'")
           (skipn 3 (script_trace remote_no_accounts_key env_ok))
           eq_refl eq_refl).
Defined.

(** X5: a rate limit raised by [get_accounts] is not retried: the script
    prints the error and the troubleshooting text, then its failure
    verdict, without any sleep or further remote call, and [main]
    returns 1. *)
Theorem get_accounts_rate_limit_is_not_retried remote environ pre m post :
  script_trace remote environ
  = pre ++ EvGetAccounts (inl (RateLimitError m)) :: post ->
  post = [EvPrint (RateLimitErr m); EvPrint RateLimitTroubleshooting;
          EvPrint MainFailed]
  /\ fst (run_main remote environ) = inr 1.
Proof.
  intros Hsplit. destruct (audit_at _ _ _ _ _ Hsplit) as (_ & _ & Hpost).
  cbn in Hpost. split; [exact Hpost|].
  apply (proj2 (verdict remote environ (EvSleep 0))).
  rewrite Hsplit, last_after, Hpost. reflexivity.
Qed.

Lemma get_accounts_rate_limit_is_not_retried_witness :
  script_trace remote_accounts_limited env_ok
  = firstn 2 (script_trace remote_accounts_limited env_ok)
    ++ EvGetAccounts (inl (RateLimitError "429"))
    :: skipn 3 (script_trace remote_accounts_limited env_ok)
  /\ skipn 3 (script_trace remote_accounts_limited env_ok)
     = [EvPrint (RateLimitErr "429"); EvPrint RateLimitTroubleshooting;
        EvPrint MainFailed]
  /\ fst (run_main remote_accounts_limited env_ok) = inr 1.
Proof.
  split; [reflexivity|].
  exact (get_accounts_rate_limit_is_not_retried remote_accounts_limited env_ok
           (firstn 2 (script_trace remote_accounts_limited env_ok)) "429"
           (skipn 3 (script_trace remote_accounts_limited env_ok)) eq_refl).
Defined.

(** X6: the [except RateLimitError] clause of [main] (the one that
    prints the troubleshooting text) only ever handles a rate limit
    raised by [get_accounts]; a rate-limited login never reaches it. *)
Theorem outer_rate_limit_handler_is_for_get_accounts remote environ pre m post :
  script_trace remote environ = pre ++ EvPrint (RateLimitErr m) :: post ->
  exists older, pre = older ++ [EvGetAccounts (inl (RateLimitError m))].
Proof.
  intros Hsplit. exact (last1_spec _ _ (audit_at _ _ _ _ _ Hsplit)).
Qed.

Lemma outer_rate_limit_handler_is_for_get_accounts_witness :
  script_trace remote_accounts_limited env_ok
  = firstn 3 (script_trace remote_accounts_limited env_ok)
    ++ EvPrint (RateLimitErr "429")
    :: skipn 4 (script_trace remote_accounts_limited env_ok)
  /\ exists older,
       firstn 3 (script_trace remote_accounts_limited env_ok)
       = older ++ [EvGetAccounts (inl (RateLimitError "429"))].
Proof.
  split; [reflexivity|].
  exact (outer_rate_limit_handler_is_for_get_accounts
           remote_accounts_limited env_ok
           (firstn 3 (script_trace remote_accounts_limited env_ok)) "429"
           (skipn 4 (script_trace remote_accounts_limited env_ok)) eq_refl).
Defined.

(** ** The last handler of [main] *)

(** X7: a fresh login that fails for a reason other than a rate limit or
    an MFA demand ends the run: the error is printed, followed by the
    rate-limit advice exactly when [rate_limit_hint] holds of the message,
    and by the failure verdict; no login and no sleep follow, and [main]
    returns 1. *)
Theorem fresh_login_failure_ends_run remote environ pre a m post :
  script_trace remote environ
  = pre ++ EvLogin a (Some (OtherException m)) :: post ->
  use_saved_session a = false ->
  post = EvPrint (ErrorCondition m)
         :: (if rate_limit_hint m then [EvPrint RateLimitDetected] else [])
         ++ [EvPrint MainFailed]
  /\ logins post = [] /\ sleeps post = []
  /\ fst (run_main remote environ) = inr 1.
Proof.
  intros Hsplit Hfresh. destruct (audit_at _ _ _ _ _ Hsplit) as (_ & Hpost).
  rewrite Hfresh in Hpost.
  destruct (generic_failure_quiet m) as (H1 & H2 & _ & Hlast).
  rewrite <- Hpost in H1, H2, Hlast.
  repeat split; try assumption.
  apply (proj2 (verdict remote environ (EvSleep 0))).
  rewrite Hsplit, last_after.
  rewrite Hpost in *. unfold generic_failure in *. exact Hlast.
Qed.

Lemma fresh_login_failure_ends_run_witness :
  script_trace remote_fresh_rejected env_ok
  = firstn 2 (script_trace remote_fresh_rejected env_ok)
    ++ EvLogin (fresh_args env_ok)
         (Some (OtherException "HTTP Code 429: Rate Limit hit"))
    :: skipn 3 (script_trace remote_fresh_rejected env_ok)
  /\ use_saved_session (fresh_args env_ok) = false
  /\ skipn 3 (script_trace remote_fresh_rejected env_ok)
     = EvPrint (ErrorCondition "HTTP Code 429: Rate Limit hit")
       :: (if rate_limit_hint "HTTP Code 429: Rate Limit hit"
           then [EvPrint RateLimitDetected] else [])
       ++ [EvPrint MainFailed]
  /\ logins (skipn 3 (script_trace remote_fresh_rejected env_ok)) = []
  /\ sleeps (skipn 3 (script_trace remote_fresh_rejected env_ok)) = []
  /\ fst (run_main remote_fresh_rejected env_ok) = inr 1.
Proof.
  split; [reflexivity|]. split; [reflexivity|].
  exact (fresh_login_failure_ends_run remote_fresh_rejected env_ok
           (firstn 2 (script_trace remote_fresh_rejected env_ok))
           (fresh_args env_ok) "HTTP Code 429: Rate Limit hit"
           (skipn 3 (script_trace remote_fresh_rejected env_ok))
           eq_refl eq_refl).
Defined.

Lemma contains_unfold n h :
  PyStr.contains n h
  = if String.prefix n h then true
    else match h with
         | EmptyString => false
         | String _ rest => PyStr.contains n rest
         end.
Proof. destruct h; reflexivity. Qed.

Lemma prefix_lower n :
  uncased n -> forall h, String.prefix n (PyStr.lower h) = String.prefix n h.
Proof.
  induction n as [|c n IH]; intros Hn h; [destruct h; reflexivity|].
  destruct Hn as [Hc Hn]. destruct h as [|c' h]; [reflexivity|]. cbn.
  destruct (Ascii.ascii_dec c (PyStr.lower_ascii c')) as [Heq | Hne];
    destruct (Ascii.ascii_dec c c') as [Heq' | Hne'].
  - apply IH, Hn.
  - exfalso. apply Hne'. symmetry. apply Hc. now symmetry.
  - exfalso. apply Hne. symmetry. apply Hc. now symmetry.
  - reflexivity.
Qed.

Lemma contains_lower n :
  uncased n -> forall h, PyStr.contains n (PyStr.lower h) = PyStr.contains n h.
Proof.
  intros Hn. induction h as [|c h IH].
  - rewrite (contains_unfold n ""), (contains_unfold n (PyStr.lower "")).
    now rewrite (prefix_lower n Hn "").
  - rewrite (contains_unfold n (String c h)),
      (contains_unfold n (PyStr.lower (String c h))).
    rewrite (prefix_lower n Hn (String c h)). cbn [PyStr.lower]. now rewrite IH.
Qed.

Lemma uncased_429 : uncased "429".
Proof.
  cbn. repeat split;
    try (destruct a as [[] [] [] [] [] [] [] []]; vm_compute; intros H;
         first [reflexivity | discriminate H]).
Qed.

(** X9: the choice of the advice does not depend on the case of the
    ASCII letters of the message. *)
Theorem rate_limit_hint_ignores_case e e' :
  PyStr.lower e = PyStr.lower e' -> rate_limit_hint e = rate_limit_hint e'.
Proof.
  intros H. unfold rate_limit_hint.
  rewrite <- (contains_lower "429" uncased_429 e),
    <- (contains_lower "429" uncased_429 e'), H.
  reflexivity.
Qed.

Lemma rate_limit_hint_ignores_case_witness :
  PyStr.lower "RATE LIMIT exceeded" = PyStr.lower "Rate Limit Exceeded"
  /\ rate_limit_hint "RATE LIMIT exceeded" = rate_limit_hint "Rate Limit Exceeded".
Proof.
  split; [reflexivity|].
  exact (rate_limit_hint_ignores_case "RATE LIMIT exceeded" "Rate Limit Exceeded"
           eq_refl).
Defined.

(** ** The login calls *)

(** X10: every login call of a run carries the e-mail address, the
    password and the MFA seed read from the environment, unchanged, and
    asks for the session to be saved; the calls differ only in
    [use_saved_session]. *)
Theorem login_arguments_come_from_environment remote environ a r :
  In (EvLogin a r) (script_trace remote environ) ->
  a = stored_args environ \/ a = fresh_args environ.
Proof.
  intros Hin. apply in_split in Hin. destruct Hin as (pre & post & Hsplit).
  destruct (audit_at _ _ _ _ _ Hsplit) as (Ha & _).
  destruct (use_saved_session a); [left; exact Ha | right; exact (proj1 Ha)].
Qed.

Lemma login_arguments_come_from_environment_witness :
  In (EvLogin (fresh_args env_ok) None) (script_trace remote_fresh_ok env_ok)
  /\ (fresh_args env_ok = stored_args env_ok
      \/ fresh_args env_ok = fresh_args env_ok).
Proof.
  assert (Hin : In (EvLogin (fresh_args env_ok) None)
                  (script_trace remote_fresh_ok env_ok))
    by (vm_compute; auto).
  split; [exact Hin|].
  exact (login_arguments_come_from_environment remote_fresh_ok env_ok
           (fresh_args env_ok) None Hin).
Defined.

(** X11: a fresh login is made only as the fallback of a saved-session
    attempt: it directly follows a saved-session login that failed for a
    reason other than a rate limit, and the line reporting that failure. *)
Theorem fresh_login_follows_stored_failure remote environ pre a r post :
  script_trace remote environ = pre ++ EvLogin a r :: post ->
  use_saved_session a = false ->
  exists older exn,
    pre = older ++ [EvLogin (stored_args environ) (Some exn);
                    EvPrint (SavedSessionFailed (str exn))]
    /\ forall m, exn <> RateLimitError m.
Proof.
  intros Hsplit Hfresh. destruct (audit_at _ _ _ _ _ Hsplit) as (Ha & _).
  rewrite Hfresh in Ha. destruct Ha as (_ & exn & Hlast & Hrl).
  destruct (last2_spec _ _ _ Hlast) as [older Holder].
  exists older, exn. split; [exact Holder|].
  intros m ->. discriminate Hrl.
Qed.

Lemma fresh_login_follows_stored_failure_witness :
  script_trace remote_fresh_ok env_ok
  = firstn 2 (script_trace remote_fresh_ok env_ok)
    ++ EvLogin (fresh_args env_ok) None
    :: skipn 3 (script_trace remote_fresh_ok env_ok)
  /\ use_saved_session (fresh_args env_ok) = false
  /\ exists older exn,
       firstn 2 (script_trace remote_fresh_ok env_ok)
       = older ++ [EvLogin (stored_args env_ok) (Some exn);
                   EvPrint (SavedSessionFailed (str exn))]
       /\ forall m, exn <> RateLimitError m.
Proof.
  split; [reflexivity|]. split; [reflexivity|].
  exact (fresh_login_follows_stored_failure remote_fresh_ok env_ok
           (firstn 2 (script_trace remote_fresh_ok env_ok))
           (fresh_args env_ok) None
           (skipn 3 (script_trace remote_fresh_ok env_ok)) eq_refl eq_refl).
Defined.

(** ** A run as a whole *)

(** X12: a run sleeps at most twice, 60 and then 120 seconds, hence at
    most 180 seconds in all; the 240 seconds of the source comment are
    never slept. *)
Theorem total_backoff_is_bounded remote environ :
  sleeps (script_trace remote environ)
  = firstn (List.length (sleeps (script_trace remote environ))) [60; 120]
  /\ fold_right Z.add 0 (sleeps (script_trace remote environ)) <= 180
  /\ ~ In 240 (sleeps (script_trace remote environ)).
Proof.
  destruct (run_summary remote environ) as (Hs & _).
  fold (script_trace remote environ) in Hs.
  destruct Hs as [-> | [-> | ->]]; cbn; repeat split; try lia;
    intros H; repeat (destruct H as [H | H]; [discriminate H|]); exact H.
Qed.

(** X13: [main] returns 0 in the runs that print the number of accounts
    retrieved and 1 in every other run. *)
Theorem main_returns_0_iff_accounts_retrieved remote environ :
  fst (run_main remote environ)
  = inr (if existsb is_retrieved (script_trace remote environ) then 0 else 1)
  /\ (fst (run_main remote environ) = inr 0
      <-> existsb is_retrieved (script_trace remote environ) = true).
Proof.
  destruct (run_summary remote environ) as (_ & _ & _ & Hv).
  fold (script_trace remote environ) in Hv.
  destruct (verdict remote environ (EvSleep 0)) as [Hok Hko].
  destruct Hv as [[Hlast Hr] | [Hlast Hr]];
    destruct (last1_spec _ _ Hlast) as [older Ht];
    rewrite Ht, last_last in Hok, Hko; rewrite Hr.
  - specialize (Hok eq_refl). split; [exact Hok|]. split; auto.
  - specialize (Hko eq_refl). split; [exact Hko|]. split; intros H; [|discriminate H].
    rewrite Hko in H. discriminate H.
Qed.

(** X14: at the end of a run the flag [login_successful] is set exactly
    when one of the two lines announcing a login was printed. *)
Theorem flag_agrees_with_announcement remote environ :
  login_successful (snd (run_script remote environ))
  = existsb logged_in (script_trace remote environ).
Proof. exact (proj1 (proj2 (run_summary remote environ))). Qed.

(** ** Two more scenarios *)

Lemma no_login_of_kind (p : Event -> bool) l :
  (forall e, p e = true -> is_login e = true) ->
  logins l = [] -> filter p l = [].
Proof.
  intros Hp. unfold logins. induction l as [|e l IH]; [reflexivity|].
  cbn. intros Hl. destruct (p e) eqn:Hpe.
  - rewrite (Hp e Hpe) in Hl. discriminate Hl.
  - apply IH. destruct (is_login e); [discriminate Hl | exact Hl].
Qed.

(** X15: when the saved-session attempt works at once, the run makes that
    one login call and no sleep, and goes on to [get_accounts]. *)
Theorem stored_session_works_at_once remote environ :
  PyStr.all [environ "MONARCH_EMAIL"; environ "MONARCH_PASS"] = true ->
  login_reply remote 0 (stored_args environ) = None ->
  script_trace remote environ
  = [EvLogin (stored_args environ) None; EvPrint LoggedInSavedSession;
     EvGetAccounts (get_accounts_reply remote)]
    ++ after_get_accounts (get_accounts_reply remote)
  /\ List.length (logins (script_trace remote environ)) = 1%nat
  /\ sleeps (script_trace remote environ) = [].
Proof.
  intros Hcred H0.
  assert (Ht : script_trace remote environ
               = [EvLogin (stored_args environ) None; EvPrint LoggedInSavedSession;
                  EvGetAccounts (get_accounts_reply remote)]
                 ++ after_get_accounts (get_accounts_reply remote)).
  { unfold stored_args, script_trace, run_script, dunder_main, main in *.
    change (range 3) with [0; 1; 2].
    cbv zeta. rewrite Hcred. cbn. rewrite H0. cbn.
    repeat audit_step;
      unfold after_get_accounts, generic_failure, rate_limit_hint;
      repeat match goal with
             | H : item _ _ = _ |- _ => rewrite H
             | H : (_ || _) = _ |- _ => rewrite H
             end;
      reflexivity. }
  split; [exact Ht|].
  destruct (after_get_accounts_quiet (get_accounts_reply remote)) as (Hl & Hs & _).
  rewrite Ht. autorewrite with trace_app. rewrite Hl, Hs. split; reflexivity.
Qed.

Lemma stored_session_works_at_once_witness :
  PyStr.all [env_ok "MONARCH_EMAIL"; env_ok "MONARCH_PASS"] = true
  /\ login_reply remote_stored_ok 0 (stored_args env_ok) = None
  /\ List.length (logins (script_trace remote_stored_ok env_ok)) = 1%nat
  /\ sleeps (script_trace remote_stored_ok env_ok) = [].
Proof.
  split; [reflexivity|]. split; [reflexivity|].
  exact (proj2 (stored_session_works_at_once remote_stored_ok env_ok
                  eq_refl eq_refl)).
Defined.

(** X16: when the saved-session attempt fails for a reason other than a
    rate limit and the fresh login then works, the run makes exactly one
    call on each path and no sleep, and goes on to [get_accounts]. *)
Theorem stored_failure_then_fresh_success remote environ exn :
  PyStr.all [environ "MONARCH_EMAIL"; environ "MONARCH_PASS"] = true ->
  login_reply remote 0 (stored_args environ) = Some exn ->
  (forall m, exn <> RateLimitError m) ->
  login_reply remote 1 (fresh_args environ) = None ->
  script_trace remote environ
  = [EvLogin (stored_args environ) (Some exn);
     EvPrint (SavedSessionFailed (str exn));
     EvLogin (fresh_args environ) None; EvPrint LoggedInFresh;
     EvGetAccounts (get_accounts_reply remote)]
    ++ after_get_accounts (get_accounts_reply remote)
  /\ List.length (filter is_stored_login (script_trace remote environ)) = 1%nat
  /\ List.length (filter is_fresh_login (script_trace remote environ)) = 1%nat
  /\ sleeps (script_trace remote environ) = [].
Proof.
  intros Hcred H0 Hexn H1.
  assert (Ht : script_trace remote environ
               = [EvLogin (stored_args environ) (Some exn);
                  EvPrint (SavedSessionFailed (str exn));
                  EvLogin (fresh_args environ) None; EvPrint LoggedInFresh;
                  EvGetAccounts (get_accounts_reply remote)]
                 ++ after_get_accounts (get_accounts_reply remote)).
  { unfold stored_args, fresh_args, script_trace, run_script, dunder_main,
      main in *.
    change (range 3) with [0; 1; 2].
    cbv zeta. rewrite Hcred. cbn. rewrite H0.
    destruct exn as [m|m|m]; [destruct (Hexn m eq_refl)| |];
      cbn; rewrite H1; cbn;
      repeat audit_step;
      unfold after_get_accounts, generic_failure, rate_limit_hint;
      repeat match goal with
             | H : item _ _ = _ |- _ => rewrite H
             | H : (_ || _) = _ |- _ => rewrite H
             end;
      reflexivity. }
  split; [exact Ht|].
  destruct (after_get_accounts_quiet (get_accounts_reply remote)) as (Hl & Hs & _).
  assert (Hnone : forall p, (forall e, p e = true -> is_login e = true) ->
                            filter p (after_get_accounts (get_accounts_reply remote))
                            = [])
    by (intros p Hp; exact (no_login_of_kind p _ Hp Hl)).
  rewrite Ht. autorewrite with trace_app. rewrite Hs.
  rewrite !Hnone; [repeat split | |].
  - intros [a r| | |] H; cbn in *; congruence.
  - intros [a r| | |] H; cbn in *; congruence.
Qed.

Lemma stored_failure_then_fresh_success_witness :
  PyStr.all [env_ok "MONARCH_EMAIL"; env_ok "MONARCH_PASS"] = true
  /\ login_reply remote_fresh_ok 0 (stored_args env_ok)
     = Some (OtherException "session expired")
  /\ (forall m, OtherException "session expired" <> RateLimitError m)
  /\ login_reply remote_fresh_ok 1 (fresh_args env_ok) = None
  /\ List.length (filter is_stored_login (script_trace remote_fresh_ok env_ok))
     = 1%nat
  /\ List.length (filter is_fresh_login (script_trace remote_fresh_ok env_ok))
     = 1%nat
  /\ sleeps (script_trace remote_fresh_ok env_ok) = [].
Proof.
  split; [reflexivity|]. split; [reflexivity|].
  split; [intros m H; discriminate H|]. split; [reflexivity|].
  exact (proj2 (stored_failure_then_fresh_success remote_fresh_ok env_ok
                  (OtherException "session expired") eq_refl eq_refl
                  (fun m H => eq_ind (OtherException "session expired")
                                (fun e => match e with
                                          | OtherException _ => True
                                          | _ => False
                                          end) I _ H)
                  eq_refl)).
Defined.
